(** * The remake debugger command interface

    A shallow embedding of [src/debugger/cmd.c] and
    [src/debugger/command/set.h]: the command registry and its
    name/alias/shortcut resolution, the [set] command with its builtin
    options, the variable-assignment handler and the decision that
    [enter_debugger] takes on every call between stopping and resuming
    the build silently.

    C strings are [string]s, a [char*] that
    may be NULL is an [option], the 256-entry slot table is a list
    indexed by character code, the table of make variables and the
    store of targets are finite maps. *)

From stdpp Require Import base option list strings gmap pretty.
From Stdlib Require Import ZArith NArith Ascii String Lia.

Local Open Scope string_scope.

(** ** C strings *)

Module CString.

(** [whitespace(c)] of cmd.c: a blank or a tab. *)
Definition whitespace (c : ascii) : bool :=
  (Ascii.eqb c " " || Ascii.eqb c "009")%bool.

(** The code of a character, as the [uint8_t] the source casts it to. *)
Definition code (c : ascii) : Z := Z.of_N (N_of_ascii c).

(** [strcmp]: the difference of the first two bytes that differ, read as
    unsigned, the end of a string counting as byte 0. *)
Fixpoint strcmp (a b : string) : Z :=
  match a, b with
  | EmptyString, EmptyString => 0
  | EmptyString, String d _ => 0 - code d
  | String c _, EmptyString => code c
  | String c a', String d b' =>
      if Ascii.eqb c d then strcmp a' b' else (code c - code d)%Z
  end.

(** [c + 1] stored back in a [char]: the sum is cut to eight bits. *)
Definition char_succ (c : ascii) : ascii :=
  ascii_of_N ((N_of_ascii c + 1) mod 256).

End CString.

(** ** The command registry (cmd.c, lines 85-181 and 249-289) *)

Module Registry.
Import CString.

(** The handlers [dbg_cmd_*] that [cmd_initialize] registers: what the
    [func] field of a slot points to. *)
Inductive dbg_cmd : Set :=
  | dbg_cmd_break | dbg_cmd_chdir | dbg_cmd_comment | dbg_cmd_continue
  | dbg_cmd_delete | dbg_cmd_down | dbg_cmd_edit | dbg_cmd_expand
  | dbg_cmd_finish | dbg_cmd_frame | dbg_cmd_help | dbg_cmd_info
  | dbg_cmd_list | dbg_cmd_load | dbg_cmd_next | dbg_cmd_print
  | dbg_cmd_pwd | dbg_cmd_quit | dbg_cmd_run | dbg_cmd_set
  | dbg_cmd_setq | dbg_cmd_setqx | dbg_cmd_shell | dbg_cmd_show
  | dbg_cmd_skip | dbg_cmd_source | dbg_cmd_step | dbg_cmd_target
  | dbg_cmd_up | dbg_cmd_where | dbg_cmd_write.

(** [long_cmd_t]. *)
Record long_cmd_t : Set := { long_name : string; short_name : ascii }.

(** [alias_cmd_t]: the real command name, then its alias. *)
Record alias_cmd_t : Set := { command : string; alias : string }.

(** [short_cmd_t]: the handler, NULL in a slot nobody registered, and
    the ordinal [id]; the usage and help texts play no part here. *)
Record short_cmd_t : Set := { func : option dbg_cmd; id : N }.

(** [commands[]], up to its NULL entry. *)
Definition commands : list long_cmd_t :=
  [ {| long_name := "break";    short_name := "b" |};
    {| long_name := "cd";       short_name := "C" |};
    {| long_name := "comment";  short_name := "#" |};
    {| long_name := "continue"; short_name := "c" |};
    {| long_name := "delete";   short_name := "d" |};
    {| long_name := "down";     short_name := "D" |};
    {| long_name := "edit";     short_name := "e" |};
    {| long_name := "expand";   short_name := "x" |};
    {| long_name := "finish";   short_name := "F" |};
    {| long_name := "frame";    short_name := "f" |};
    {| long_name := "help";     short_name := "h" |};
    {| long_name := "info";     short_name := "i" |};
    {| long_name := "list";     short_name := "l" |};
    {| long_name := "load";     short_name := "M" |};
    {| long_name := "next";     short_name := "n" |};
    {| long_name := "print";    short_name := "p" |};
    {| long_name := "pwd";      short_name := "P" |};
    {| long_name := "quit";     short_name := "q" |};
    {| long_name := "run";      short_name := "R" |};
    {| long_name := "set";      short_name := "=" |};
    {| long_name := "setq";     short_name := "034" |};
    {| long_name := "setqx";    short_name := "`" |};
    {| long_name := "shell";    short_name := "!" |};
    {| long_name := "show";     short_name := "S" |};
    {| long_name := "skip";     short_name := "k" |};
    {| long_name := "source";   short_name := "<" |};
    {| long_name := "step";     short_name := "s" |};
    {| long_name := "target";   short_name := "t" |};
    {| long_name := "up";       short_name := "u" |};
    {| long_name := "where";    short_name := "T" |};
    {| long_name := "write";    short_name := "w" |} ].

(** [aliases[]], up to its NULL entry. *)
Definition aliases : list alias_cmd_t :=
  [ {| command := "shell"; alias := "!!" |};
    {| command := "help";  alias := "?" |};
    {| command := "break"; alias := "L" |};
    {| command := "where"; alias := "backtrace" |};
    {| command := "where"; alias := "bt" |};
    {| command := "quit";  alias := "exit" |};
    {| command := "run";   alias := "restart" |};
    {| command := "quit";  alias := "return" |} ].

(** The first loop of [find_command]: the name the scan of the alias
    table leaves in [psz_name]. The scan stops at a match and at the
    first alias that sorts after the name. *)
Fixpoint scan_aliases (tbl : list alias_cmd_t) (psz_name : string) : string :=
  match tbl with
  | [] => psz_name
  | a :: tbl' =>
      let cmp := strcmp psz_name (alias a) in
      if (cmp =? 0)%Z then command a
      else if (cmp <? 0)%Z then psz_name
      else scan_aliases tbl' psz_name
  end.

(** The second loop of [find_command]: the index into [short_command]
    of the command called [psz_name], with the same early exit. *)
Fixpoint scan_commands (tbl : list long_cmd_t) (psz_name : string) : option nat :=
  match tbl with
  | [] => None
  | c :: tbl' =>
      let cmp := strcmp psz_name (long_name c) in
      if (cmp =? 0)%Z then Some (nat_of_ascii (short_name c))
      else if (cmp <? 0)%Z then None
      else scan_commands tbl' psz_name
  end.

(** [find_command]: a pointer into [short_command] is the index of the
    slot, NULL is [None]. *)
Definition find_command (psz_name : string) : option nat :=
  scan_commands commands (scan_aliases aliases psz_name).

(** [short_command[256]] before [cmd_initialize]: no slot has a
    handler. The initialiser gives the first slot the ordinal 255 and
    leaves the other 255 slots zeroed. *)
Definition null_slot : short_cmd_t := {| func := None; id := 0 |}.
Definition short_command_init : list short_cmd_t :=
  {| func := None; id := 255 |} :: replicate 255 null_slot.

(** [DBG_CMD_INIT(CMD, LETTER)]: [dbg_cmd_CMD_init(LETTER)] runs, then
    the macro stores the ordinal and increments it. Of the init
    functions only [dbg_cmd_set_init] (set.h) is among the sources: it
    stores its handler in the slot of the letter it is given and writes
    no other slot. The init functions of the other commands are taken
    to do the same with their own handler (the slot table is "populated
    exactly once at first engagement", one handler per short code). *)
Definition DBG_CMD_INIT (f : dbg_cmd) (letter : ascii)
    (st : list short_cmd_t * N) : list short_cmd_t * N :=
  let '(tbl, n) := st in
  (<[nat_of_ascii letter := {| func := Some f; id := n |}]> tbl, (n + 1)%N).

(** The calls of [cmd_initialize], in its order. *)
Definition registrations : list (dbg_cmd * ascii) :=
  [ (dbg_cmd_break, "b"); (dbg_cmd_chdir, "C"); (dbg_cmd_comment, "#");
    (dbg_cmd_continue, "c"); (dbg_cmd_delete, "d"); (dbg_cmd_down, "D");
    (dbg_cmd_edit, "e"); (dbg_cmd_expand, "x"); (dbg_cmd_finish, "F");
    (dbg_cmd_frame, "f"); (dbg_cmd_help, "h"); (dbg_cmd_info, "i");
    (dbg_cmd_list, "l"); (dbg_cmd_load, "M"); (dbg_cmd_next, "n");
    (dbg_cmd_print, "p"); (dbg_cmd_pwd, "P"); (dbg_cmd_quit, "q");
    (dbg_cmd_run, "R"); (dbg_cmd_set, "="); (dbg_cmd_setq, "034");
    (dbg_cmd_setqx, "`"); (dbg_cmd_shell, "!"); (dbg_cmd_show, "S");
    (dbg_cmd_skip, "k"); (dbg_cmd_source, "<"); (dbg_cmd_step, "s");
    (dbg_cmd_target, "t"); (dbg_cmd_up, "u"); (dbg_cmd_where, "T");
    (dbg_cmd_write, "w") ]%char.

Definition cmd_initialize (tbl : list short_cmd_t) : list short_cmd_t :=
  fst (fold_left (fun st r => DBG_CMD_INIT (fst r) (snd r) st)
                 registrations (tbl, 0%N)).

(** The slot a pointer designates. *)
Definition slot (tbl : list short_cmd_t) (i : nat) : short_cmd_t :=
  default null_slot (tbl !! i).

(** The resolution step of [execute_line] (lines 299-306): the slot the
    word [psz_word] selects in the table [tbl], [None] for the NULL that
    makes [execute_line] answer "No such debugger command". *)
Definition resolve_command (tbl : list short_cmd_t) (psz_word : string)
    : option nat :=
  if (String.length psz_word =? 1)%nat then
    match psz_word with
    | String c _ =>
        match func (slot tbl (nat_of_ascii c)) with
        | Some _ => Some (nat_of_ascii c)
        | None => None
        end
    | EmptyString => None
    end
  else find_command psz_word.

End Registry.

(** ** Helpers of fns.c *)

Module Fns.
Import CString.

(** The text left once the leading blanks and tabs are skipped. *)
Fixpoint skip_whitespace (s : string) : string :=
  match s with
  | String c s' => if whitespace c then skip_whitespace s' else s
  | EmptyString => EmptyString
  end.

(** The word that starts [s] and the text after the character that ends
    it: that character is overwritten with NUL and stepped over. At the
    end of the text nothing is stepped over. *)
Fixpoint split_word (s : string) : string * string :=
  match s with
  | EmptyString => (EmptyString, EmptyString)
  | String c s' =>
      if whitespace c then (EmptyString, s')
      else let '(w, rest) := split_word s' in (String c w, rest)
  end.

(** Modelled from the spec: [get_word] is not among the sources. It
    takes "the first whitespace-delimited token" of the text: leading
    blanks are skipped, the word runs up to the next blank, tab or end,
    and the caller's pointer is left after the word. The result is the
    word and the text the pointer is left at. *)
Definition get_word (psz_str : string) : string * string :=
  split_word (skip_whitespace psz_str).

(** A text with no blank and no tab in it. *)
Fixpoint is_word (s : string) : bool :=
  match s with
  | EmptyString => true
  | String c s' => (negb (whitespace c) && is_word s')%bool
  end.

(** Modelled from the spec: [is_abbrev_of] is not among the sources.
    "Case-sensitive unique-prefix abbreviation ..., each option carrying
    its own minimum unambiguous prefix length; a prefix shorter than the
    threshold or matching no option is rejected". *)
Definition is_abbrev_of (psz_substr psz_word : string) (i_min : nat) : bool :=
  ((i_min <=? String.length psz_substr)%nat
   && String.prefix psz_substr psz_word)%bool.

(** The text without the blanks and tabs at its end. *)
Fixpoint strip_trailing (s : string) : string :=
  match s with
  | EmptyString => EmptyString
  | String c s' =>
      match strip_trailing s' with
      | EmptyString => if whitespace c then EmptyString else String c EmptyString
      | r => String c r
      end
  end.

(** Modelled from the spec: [stripwhite] is not among the sources. The
    line with its leading and trailing whitespace removed. *)
Definition stripwhite (s : string) : string :=
  strip_trailing (skip_whitespace s).

(** The while loop that follows [get_word] in [dbg_cmd_set] and in
    [dbg_cmd_set_var], seen from the character [psz_args] points at:
    as long as that character is not NUL and is whitespace, the body
    adds one to the character (the star is on the left of [+=1]) and
    leaves the pointer where it is. A character has 256 values,
    so 256 rounds is as far as the loop could go without coming back to
    a value it has seen. *)
Fixpoint bump_while (fuel : nat) (c : ascii) : ascii :=
  match fuel with
  | O => c
  | S fuel' =>
      if (negb (Ascii.eqb c zero) && whitespace c)%bool
      then bump_while fuel' (char_succ c)
      else c
  end.

(** The text at [psz_args] after that loop. At the end of the text the
    loop does not run. A character turned into NUL would end the text. *)
Definition bump_leading (psz_args : string) : string :=
  match psz_args with
  | EmptyString => EmptyString
  | String c s' =>
      let c' := bump_while 256 c in
      if Ascii.eqb c' zero then EmptyString else String c' s'
  end.

End Fns.

(** ** Types and process-wide state *)

Module Types.

(** [debug_return_t]. The first three are the values cmd.c names; the
    fourth stands for the "quit-debugger" signal of the handlers. *)
Inductive debug_return_t : Set :=
  | continue_execution
  | debug_readloop
  | debug_cmd_error
  | debug_quit.

(** [debug_enter_reason_t]. The first three are the reasons cmd.c names
    in its switch; the others are the remaining stop reasons (on-error,
    on-fatal-error, manual-request). *)
Inductive debug_enter_reason_t : Set :=
  | DEBUG_BRKPT_AFTER_CMD
  | DEBUG_BRKPT_BEFORE_PREREQ
  | DEBUG_BRKPT_AFTER_PREREQ
  | DEBUG_ERROR_HIT
  | DEBUG_FATAL_ERROR_HIT
  | DEBUG_EXPLICIT_CALL.

(** Origin of a variable; cmd.c writes with [o_debugger]. *)
Inductive variable_origin : Set :=
  | o_default | o_env | o_file | o_command | o_debugger.

(** A source location ([gmk_floc]). *)
Record floc_t : Set := { filenm : string; lineno : N }.

(** What cmd.c reads and writes of a target ([file_t]). *)
Record file_t : Set := { name : string; floc : floc_t; tracing : Z }.

(** A node of the target stack: the target it holds, or NULL. *)
Record target_stack_node_t : Set := { p_target : option N }.

(** A variable of the global set, kept under its name: the name is the
    key of the table, the record holds the rest. *)
Record variable_t : Set :=
  { value : string; origin : variable_origin; fileinfo : floc_t }.

(** What the debugger prints or asks its collaborators to print. *)
Inductive event : Set :=
  | Printed (text : string)
  | Show (what : string)
  | Help_entry (cmd what : string)
  | Location (target : option N) (reason : debug_enter_reason_t)
  | Prompt (text : string).

(** The flags the options of [set] are bound to. *)
Record flags_t : Set :=
  { basename_filenames : Z;
    db_level : Z;
    ignore_errors_flag : Z;
    keep_going_flag : Z;
    silent_flag : Z;
    no_shell_trace : Z }.

(** The globals [enter_debugger] decides on. *)
Record stepping_t : Set :=
  { in_debugger : Z;
    i_debugger_stepping : N;
    i_debugger_nexting : N;
    debugger_on_error : Z;
    last_stop_reason : debug_enter_reason_t;
    makelevel : N }.

(** The frame position the debugger reports. *)
Record report_t : Set :=
  { p_target_loc : option N;
    psz_target_name : string;
    i_stack_pos : N;
    p_stack : option target_stack_node_t;
    p_stack_top : option target_stack_node_t;
    p_floc_stack : option N;
    p_stack_floc_top : option N }.

(** The one-time initialisation: the two static flags of
    [enter_debugger], [use_readline_flag], the slot table and the size
    of the [file2lines] table. *)
Record init_t : Set :=
  { b_init : bool;
    b_readline_init : bool;
    use_readline_flag : bool;
    short_command : list Registry.short_cmd_t;
    file2lines_ht_size : N }.

(** The whole state: globals, the targets in memory by address, the
    variables by name, and what was printed, latest first. *)
Record world : Type :=
  { flags : flags_t;
    stepping : stepping_t;
    report : report_t;
    init : init_t;
    files : gmap N file_t;
    vars : gmap string variable_t;
    output : list event }.

Definition set_flags (f : flags_t) (w : world) : world :=
  {| flags := f; stepping := stepping w; report := report w; init := init w;
     files := files w; vars := vars w; output := output w |}.

Definition set_stepping (s : stepping_t) (w : world) : world :=
  {| flags := flags w; stepping := s; report := report w; init := init w;
     files := files w; vars := vars w; output := output w |}.

Definition set_report (r : report_t) (w : world) : world :=
  {| flags := flags w; stepping := stepping w; report := r; init := init w;
     files := files w; vars := vars w; output := output w |}.

Definition set_init (i : init_t) (w : world) : world :=
  {| flags := flags w; stepping := stepping w; report := report w; init := i;
     files := files w; vars := vars w; output := output w |}.

Definition set_files (m : gmap N file_t) (w : world) : world :=
  {| flags := flags w; stepping := stepping w; report := report w; init := init w;
     files := m; vars := vars w; output := output w |}.

Definition set_vars (m : gmap string variable_t) (w : world) : world :=
  {| flags := flags w; stepping := stepping w; report := report w; init := init w;
     files := files w; vars := m; output := output w |}.

(** One more event printed. *)
Definition emit (e : event) (w : world) : world :=
  {| flags := flags w; stepping := stepping w; report := report w; init := init w;
     files := files w; vars := vars w; output := e :: output w |}.

End Types.

(** ** The global variable set (variable.c, seen from the debugger) *)

Module Variables.
Import CString Types.

(** The [length] bytes at [name], a NUL-terminated buffer: a prefix of
    the name, or the name and its terminating NUL. What lies behind the
    terminator is not the name's, and reading it has no meaning here. *)
Definition name_bytes (name : string) (length : nat) : option string :=
  if (length <=? String.length name)%nat
  then Some (String.substring 0 length name)
  else if (length =? S (String.length name))%nat
  then Some (name ++ String zero EmptyString)
  else None.

(** Modelled from the spec: [lookup_variable] is not among the sources.
    "Find an existing binding by name" in the global table: the name is
    the [length] bytes at [name]. A [variable_t*] is the name the
    binding is kept under, with the binding; NULL is [None]. *)
Definition lookup_variable (m : gmap string variable_t)
    (name : string) (length : nat) : option (string * variable_t) :=
  let key := String.substring 0 length name in
  (fun v => (key, v)) <$> m !! key.

(** Modelled from the spec: [try_without_dollar] is not among the
    sources. "Retry after stripping one leading sigil character from
    the name, and only proceed with that binding if the retry
    succeeds." *)
Definition try_without_dollar (m : gmap string variable_t)
    (psz_varname : string) : option (string * variable_t) :=
  match psz_varname with
  | String c rest =>
      if Ascii.eqb c "$" then lookup_variable m rest (String.length rest)
      else None
  | EmptyString => None
  end.

(** Modelled from the spec: [define_variable_in_set] is not among the
    sources. "Define-with-origin": the variable named by the [length]
    bytes at [name] gets the value, the origin and the location, in the
    global set (the call passes NULL for the set), whether it existed
    or not. *)
Definition define_variable_in_set (name : string) (length : nat)
    (value : string) (origin : variable_origin) (flocp : floc_t)
    (m : gmap string variable_t) : option (gmap string variable_t) :=
  key ← name_bytes name length;
  Some (<[key := {| value := value; origin := origin; fileinfo := flocp |}]> m).

End Variables.

(** ** The commands [set] and set-variable (set.h; cmd.c, lines 345-383) *)

Module Commands.
Import CString Fns Types Variables.

(** The flag a [set] option is bound to: the [var] pointer of
    [set_subcommands]. *)
Inductive flag_ref : Set :=
  | ref_basename_filenames | ref_db_level | ref_ignore_errors_flag
  | ref_keep_going_flag | ref_silent_flag | ref_no_shell_trace.

Definition get_flag (r : flag_ref) (f : flags_t) : Z :=
  match r with
  | ref_basename_filenames => basename_filenames f
  | ref_db_level => db_level f
  | ref_ignore_errors_flag => ignore_errors_flag f
  | ref_keep_going_flag => keep_going_flag f
  | ref_silent_flag => silent_flag f
  | ref_no_shell_trace => no_shell_trace f
  end.

Definition put_flag (r : flag_ref) (v : Z) (f : flags_t) : flags_t :=
  match r with
  | ref_basename_filenames =>
      {| basename_filenames := v; db_level := db_level f;
         ignore_errors_flag := ignore_errors_flag f;
         keep_going_flag := keep_going_flag f;
         silent_flag := silent_flag f; no_shell_trace := no_shell_trace f |}
  | ref_db_level =>
      {| basename_filenames := basename_filenames f; db_level := v;
         ignore_errors_flag := ignore_errors_flag f;
         keep_going_flag := keep_going_flag f;
         silent_flag := silent_flag f; no_shell_trace := no_shell_trace f |}
  | ref_ignore_errors_flag =>
      {| basename_filenames := basename_filenames f; db_level := db_level f;
         ignore_errors_flag := v;
         keep_going_flag := keep_going_flag f;
         silent_flag := silent_flag f; no_shell_trace := no_shell_trace f |}
  | ref_keep_going_flag =>
      {| basename_filenames := basename_filenames f; db_level := db_level f;
         ignore_errors_flag := ignore_errors_flag f;
         keep_going_flag := v;
         silent_flag := silent_flag f; no_shell_trace := no_shell_trace f |}
  | ref_silent_flag =>
      {| basename_filenames := basename_filenames f; db_level := db_level f;
         ignore_errors_flag := ignore_errors_flag f;
         keep_going_flag := keep_going_flag f;
         silent_flag := v; no_shell_trace := no_shell_trace f |}
  | ref_no_shell_trace =>
      {| basename_filenames := basename_filenames f; db_level := db_level f;
         ignore_errors_flag := ignore_errors_flag f;
         keep_going_flag := keep_going_flag f;
         silent_flag := silent_flag f; no_shell_trace := v |}
  end.

(** [subcommand_var_info_t], without its two help texts. *)
Record subcommand_var_info_t : Set :=
  { sub_name : string;
    var : option flag_ref;
    b_onoff : bool;
    min_abbrev : nat }.

(** [set_subcommands[]], up to its NULL entry. *)
Definition set_subcommands : list subcommand_var_info_t :=
  [ {| sub_name := "basename"; var := Some ref_basename_filenames;
       b_onoff := true; min_abbrev := 1 |};
    {| sub_name := "debug"; var := Some ref_db_level;
       b_onoff := false; min_abbrev := 1 |};
    {| sub_name := "ignore-errors"; var := Some ref_ignore_errors_flag;
       b_onoff := true; min_abbrev := 1 |};
    {| sub_name := "keep-going"; var := Some ref_keep_going_flag;
       b_onoff := true; min_abbrev := 1 |};
    {| sub_name := "silent"; var := Some ref_silent_flag;
       b_onoff := true; min_abbrev := 1 |};
    {| sub_name := "trace"; var := Some ref_no_shell_trace;
       b_onoff := false; min_abbrev := 3 |};
    {| sub_name := "VARIABLE"; var := None;
       b_onoff := false; min_abbrev := 0 |} ].

(** Modelled from the spec: [on_off_toggle] is not among the sources.
    "Accepts an argument of on, off, toggle (flip)": on stores 1, off
    stores 0, toggle stores the negation; any other text leaves the
    flag as it is. *)
Definition on_off_toggle (psz_onoff : string) (r : flag_ref)
    (f : flags_t) : flags_t :=
  if String.eqb psz_onoff "on" then put_flag r 1 f
  else if String.eqb psz_onoff "off" then put_flag r 0 f
  else if String.eqb psz_onoff "toggle"
  then put_flag r (if (get_flag r f =? 0)%Z then 1 else 0)%Z f
  else f.

(** The branch the if-chain of [dbg_cmd_set] takes on the option word:
    the word the chain tests for and the least length it asks of an
    abbreviation. *)
Inductive set_branch : Set :=
  | br_variable | br_basename | br_debug | br_ignore_errors
  | br_keep_going | br_silent | br_trace.

Definition branch_word (b : set_branch) : string :=
  match b with
  | br_variable => "variable"
  | br_basename => "basename"
  | br_debug => "debug"
  | br_ignore_errors => "ignore-errors"
  | br_keep_going => "keep-going"
  | br_silent => "silent"
  | br_trace => "trace"
  end.

Definition branch_min (b : set_branch) : nat :=
  match b with
  | br_basename => 4
  | _ => 3
  end.

(** The tests of the chain, in its order. *)
Definition set_branches : list set_branch :=
  [ br_variable; br_basename; br_debug; br_ignore_errors;
    br_keep_going; br_silent; br_trace ].

(** The first branch whose test accepts the word; [None] is the final
    else of the chain. *)
Definition select_branch (psz_varname : string) : option set_branch :=
  List.find (fun b => is_abbrev_of psz_varname (branch_word b) (branch_min b))
            set_branches.

Section Handlers.

(** [variable_expand] and [get_int] are not among the sources and are
    taken as they come: the expansion of a text against the variables,
    and the integer a text denotes, if it denotes one. *)
Variable variable_expand : gmap string variable_t -> string -> string.
Variable get_int : string -> option Z.

(** [dbg_cmd_set_var]. [None] is a call of [define_variable_in_set]
    that would read behind the name it is given. *)
Definition dbg_cmd_set_var (psz_args : option string) (expand : Z)
    (w : world) : option (world * debug_return_t) :=
  match psz_args with
  | None | Some EmptyString =>
      Some (emit (Printed "You need to supply a variable name.") w,
            debug_readloop)
  | Some args =>
      let '(psz_varname, rest) := get_word args in
      let u_len := String.length psz_varname in
      let psz_args := bump_leading rest in
      let write (p_v : string * variable_t) :=
        let psz_value :=
          if (expand =? 0)%Z then psz_args
          else variable_expand (vars w) psz_args in
        m ← define_variable_in_set (fst p_v) u_len psz_value
               o_debugger (fileinfo (snd p_v)) (vars w);
        Some (emit (Printed ("Variable " ++ psz_varname
                             ++ " now has value '" ++ psz_value ++ "'"))
                   (set_vars m w),
              debug_readloop) in
      match lookup_variable (vars w) psz_varname u_len with
      | Some p_v => write p_v
      | None =>
          match try_without_dollar (vars w) psz_varname with
          | Some p_v => write p_v
          | None => Some (w, debug_readloop)
          end
      end
  end.

(** The loop at the top of [dbg_cmd_set] with no argument: one help
    entry per row of [set_subcommands]. *)
Definition list_subcommands (w : world) : world :=
  fold_left (fun w' s => emit (Help_entry "set" (sub_name s)) w')
            set_subcommands w.

(** An on/off option: toggled when no argument is left, set from the
    argument otherwise; then the option is shown. [r_none] is the flag
    written in the first case, [r_some] the flag written in the
    second. *)
Definition set_on_off (psz_args : string) (r_none r_some : flag_ref)
    (shown : string) (w : world) : world :=
  let f :=
    match psz_args with
    | EmptyString => on_off_toggle "toggle" r_none (flags w)
    | _ => on_off_toggle psz_args r_some (flags w)
    end in
  emit (Show shown) (set_flags f w).

(** [dbg_cmd_set]. *)
Definition dbg_cmd_set (psz_args : option string) (w : world)
    : option (world * debug_return_t) :=
  match psz_args with
  | None | Some EmptyString => Some (list_subcommands w, debug_readloop)
  | Some args =>
      let '(psz_varname, rest) := get_word args in
      let psz_args := bump_leading rest in
      match select_branch psz_varname with
      | Some br_variable => dbg_cmd_set_var (Some psz_args) 3 w
      | Some br_basename =>
          Some (set_on_off psz_args ref_basename_filenames
                  ref_basename_filenames "basename" w, debug_readloop)
      | Some br_debug =>
          match get_int psz_args with
          | Some dbg_mask =>
              Some (set_flags (put_flag ref_db_level dbg_mask (flags w)) w,
                    debug_readloop)
          | None => Some (w, debug_readloop)
          end
      | Some br_ignore_errors =>
          Some (set_on_off psz_args ref_ignore_errors_flag
                  ref_ignore_errors_flag "ignore_errors" w, debug_readloop)
      | Some br_keep_going =>
          Some (set_on_off psz_args ref_keep_going_flag
                  ref_keep_going_flag "keep-going" w, debug_readloop)
      | Some br_silent =>
          Some (set_on_off psz_args ref_silent_flag
                  ref_silent_flag "silent" w, debug_readloop)
      | Some br_trace =>
          Some (set_on_off psz_args ref_no_shell_trace
                  ref_silent_flag "silent" w, debug_readloop)
      | None => dbg_cmd_set_var (Some psz_args) 1 w
      end
  end.

End Handlers.

End Commands.

(** ** [execute_line] and [enter_debugger] (cmd.c, lines 291-321 and 387-557) *)

Module Debugger.
Import CString Fns Types Variables Commands.

(** Modelled from the spec: debugger.h and break.h are not among the
    sources. [in_debugger] holds false (0), true (1) or the
    "guaranteed-quit terminal state" [DEBUGGER_QUIT_RC], a value apart
    from both. The tracing field of a target is a set of "bit-flags
    (active / temporary)": [BRK_NONE] is the empty set, [BRK_TEMP] the
    one-shot bit, the other three the persistent always-stop bits. *)
Definition DEBUGGER_QUIT_RC : Z := 77.
Definition BRK_NONE : Z := 0.
Definition BRK_BEFORE_PREREQ : Z := 1.
Definition BRK_AFTER_PREREQ : Z := 2.
Definition BRK_AFTER_CMD : Z := 4.
Definition BRK_ALL : Z :=
  Z.lor BRK_BEFORE_PREREQ (Z.lor BRK_AFTER_PREREQ BRK_AFTER_CMD).
Definition BRK_TEMP : Z := 8.

Definition MAX_NEST_DEPTH : nat := 10.

(** How a call of [enter_debugger] gets to its read loop, if it does:
    [gate_fault] is the dereference of a pointer that is NULL or points
    at no target. *)
Inductive gate_t : Type :=
  | gate_fault
  | gate_resume (w : world)
  | gate_engage (w : world).

(** How a call of [enter_debugger] ends. [No_return] is the end of the
    input: [dbg_cmd_quit(NULL)] is called and the loop has nothing else
    to read. *)
Inductive outcome : Type :=
  | Fault
  | No_return (w : world)
  | Returned (w : world) (r : debug_return_t).

Definition with_last_stop_reason (r : debug_enter_reason_t) (s : stepping_t)
    : stepping_t :=
  {| in_debugger := in_debugger s;
     i_debugger_stepping := i_debugger_stepping s;
     i_debugger_nexting := i_debugger_nexting s;
     debugger_on_error := debugger_on_error s;
     last_stop_reason := r;
     makelevel := makelevel s |}.

Definition with_in_debugger (v : Z) (s : stepping_t) : stepping_t :=
  {| in_debugger := v;
     i_debugger_stepping := i_debugger_stepping s;
     i_debugger_nexting := i_debugger_nexting s;
     debugger_on_error := debugger_on_error s;
     last_stop_reason := last_stop_reason s;
     makelevel := makelevel s |}.

Definition with_counts (st nx : N) (s : stepping_t) : stepping_t :=
  {| in_debugger := in_debugger s;
     i_debugger_stepping := st;
     i_debugger_nexting := nx;
     debugger_on_error := debugger_on_error s;
     last_stop_reason := last_stop_reason s;
     makelevel := makelevel s |}.

Definition with_tracing (t : Z) (f : file_t) : file_t :=
  {| name := name f; floc := floc f; tracing := t |}.

(** [if (n) n--;] on an unsigned counter. *)
Definition decrement (n : N) : N := if (n =? 0)%N then n else (n - 1)%N.

(** The target a pointer designates. *)
Definition deref (w : world) (p_target : option N) : option file_t :=
  a ← p_target; files w !! a.

(** Lines 409-424: the reason is recorded, then the call either returns
    [continue_execution] at once or goes on. *)
Definition debugger_gate (p_target : option N) (errcode : Z)
    (reason : debug_enter_reason_t) (w : world) : gate_t :=
  let w := set_stepping (with_last_stop_reason reason (stepping w)) w in
  let s := stepping w in
  if (in_debugger s =? DEBUGGER_QUIT_RC)%Z then gate_resume w
  else if ((1 <? i_debugger_stepping s)%N || (1 <? i_debugger_nexting s)%N)%bool
  then
    let w := set_stepping (with_counts (decrement (i_debugger_stepping s))
                                       (decrement (i_debugger_nexting s)) s) w in
    match deref w p_target with
    | None => gate_fault
    | Some f => if (tracing f =? 0)%Z then gate_resume w else gate_engage w
    end
  else if ((debugger_on_error s =? 0)%Z
           && negb (negb (i_debugger_stepping s =? 0)%N
                    || negb (i_debugger_nexting s =? 0)%N))%bool
  then
    match p_target with
    | None => gate_engage w
    | Some _ =>
        match deref w p_target with
        | None => gate_fault
        | Some f =>
            if ((tracing f =? 0)%Z && negb (errcode =? -2)%Z)%bool
            then gate_resume w else gate_engage w
        end
    end
  else gate_engage w.

(** The cases of the switch on [last_stop_reason] (lines 428-436). *)
Definition clears_temporary (r : debug_enter_reason_t) : bool :=
  match r with
  | DEBUG_BRKPT_AFTER_CMD
  | DEBUG_BRKPT_BEFORE_PREREQ
  | DEBUG_BRKPT_AFTER_PREREQ => true
  | _ => false
  end.

(** Lines 426-436, "Clear temporary breakpoints". *)
Definition clear_temporary_breakpoints (p_target : option N) (w : world)
    : option world :=
  match p_target with
  | None => Some w
  | Some a =>
      f ← files w !! a;
      if (negb (Z.land (tracing f) BRK_TEMP =? 0)%Z
          && clears_temporary (last_stop_reason (stepping w)))%bool
      then Some (set_files (<[a := with_tracing BRK_NONE f]> (files w)) w)
      else Some w
  end.

(** Lines 438-450: the line editor and the slot table are set up once. *)
Definition initialize_once (w : world) : world :=
  let i := init w in
  let rl := (use_readline_flag i && negb (b_readline_init i))%bool in
  let i1 :=
    {| b_init := b_init i;
       b_readline_init := if rl then true else b_readline_init i;
       use_readline_flag := use_readline_flag i;
       short_command := short_command i;
       file2lines_ht_size := file2lines_ht_size i |} in
  let i2 :=
    if b_init i1 then i1
    else {| b_init := true;
            b_readline_init := b_readline_init i1;
            use_readline_flag := use_readline_flag i1;
            short_command := Registry.cmd_initialize (short_command i1);
            file2lines_ht_size := 0 |} in
  set_init i2 w.

(** Lines 453-470: the reported frame position is reset to the top of
    the stack: the target of the stack top if it has one, else the
    target passed in. The location is kept as the address of the target
    it belongs to. *)
Definition report_frame (p : option target_stack_node_t)
    (p_target : option N) (w : world) : option world :=
  let pick : option N :=
    match p with
    | Some node =>
        match Types.p_target node with
        | Some a => Some a
        | None => p_target
        end
    | None => p_target
    end in
  let mk loc nm :=
    set_report {| p_target_loc := loc;
                  psz_target_name := nm;
                  i_stack_pos := 0;
                  p_stack := p;
                  p_stack_top := p;
                  p_floc_stack := p_stack_floc_top (report w);
                  p_stack_floc_top := p_stack_floc_top (report w) |} w in
  match pick with
  | None => Some (mk None EmptyString)
  | Some a => f ← files w !! a; Some (mk (Some a) (name f))
  end.

(** Lines 472-483: [open_depth] and [close_depth] are [glyph] repeated
    once per nesting level, at most five times, and three dots when the
    five are reached. *)
Definition depth_glyphs (makelevel : N) (glyph : ascii) : string :=
  let i := Nat.min (S (N.to_nat makelevel)) (MAX_NEST_DEPTH - 5) in
  string_of_list_ascii (repeat glyph i)
  ++ (if (i =? MAX_NEST_DEPTH - 5)%nat then "..." else "").

(** Lines 485-506: the debugger is entered and the banner for the error
    code printed, here without its line breaks; the end of a nested
    make puts [in_debugger] in its quit state. *)
Definition announce (errcode : Z) (w : world) : world :=
  let w := set_stepping (with_in_debugger 1 (stepping w)) w in
  if (errcode =? 0)%Z then w
  else if (errcode =? -1)%Z then
    emit (Printed "***Entering debugger because we encountered an error.") w
  else if (errcode =? -2)%Z then
    if (makelevel (stepping w) =? 0)%N then
      emit (Printed "Use q to quit or R to restart")
           (emit (Printed "Makefile terminated.") w)
    else
      set_stepping (with_in_debugger DEBUGGER_QUIT_RC (stepping w))
        (emit (Printed ("the makefile at this level or 's', 'n', or 'F' to "
                        ++ "continue in parent"))
           (emit (Printed ("Makefile finished at level "
                           ++ pretty (makelevel (stepping w))
                           ++ ". Use R to restart")) w))
  else
    emit (Printed ("Exiting the debugger will exit make with exit code "
                   ++ pretty errcode ++ "."))
         (emit (Printed "***Entering debugger because we encountered a fatal error.") w).

(** Lines 409-508: everything [enter_debugger] does before its loop. *)
Definition enter_debugger_prologue (p : option target_stack_node_t)
    (p_target : option N) (errcode : Z) (reason : debug_enter_reason_t)
    (w : world) : gate_t :=
  match debugger_gate p_target errcode reason w with
  | gate_engage w1 =>
      match clear_temporary_breakpoints p_target w1 with
      | None => gate_fault
      | Some w2 =>
          match report_frame p p_target (initialize_once w2) with
          | None => gate_fault
          | Some w3 =>
              gate_engage (emit (Location p_target reason) (announce errcode w3))
          end
      end
  | g => g
  end.

(** Lines 553-554. *)
Definition leave_debugger (w : world) : world :=
  if (in_debugger (stepping w) =? DEBUGGER_QUIT_RC)%Z then w
  else set_stepping (with_in_debugger 0 (stepping w)) w.

Section Loop.

Variable variable_expand : gmap string variable_t -> string -> string.
Variable get_int : string -> option Z.

(** The handlers other than [dbg_cmd_set] are not among the sources:
    [handler f args w] is what the handler [f] does with the argument
    text in the state [w], [None] when it faults. *)
Variable handler :
  Registry.dbg_cmd -> option string -> world -> option (world * debug_return_t).

(** A call through the [func] pointer of a slot. *)
Definition call (f : Registry.dbg_cmd) (psz_args : option string) (w : world)
    : option (world * debug_return_t) :=
  match f with
  | Registry.dbg_cmd_set => dbg_cmd_set variable_expand get_int psz_args w
  | _ => handler f psz_args w
  end.

(** [execute_line]. A slot found by name whose [func] is NULL makes the
    call fault. The global [psz_debugger_args], which the function
    leaves pointing at the argument text, is not part of the state
    kept here: the argument text is what the handler is given. *)
Definition execute_line (psz_line : string) (w : world)
    : option (world * debug_return_t) :=
  let '(psz_word, rest) := get_word psz_line in
  let tbl := short_command (init w) in
  match Registry.resolve_command tbl psz_word with
  | None =>
      Some (emit (Printed ("No such debugger command: " ++ psz_word ++ ".")) w,
            debug_readloop)
  | Some i =>
      f ← Registry.func (Registry.slot tbl i);
      call f (Some (skip_whitespace rest)) w
  end.

(** Lines 510-551: the loop reads the lines the user types, one per
    round, until a command returns something other than
    [debug_readloop] and [debug_cmd_error]. The prompt shows the depth
    glyphs; the history number between them is the line editor's, and
    the history itself (the calls of [add_history]) is not part of the
    state kept here. *)
Fixpoint read_loop (open_depth close_depth : string) (lines : list string)
    (w : world) : outcome :=
  let w := emit (Prompt ("remake" ++ open_depth ++ close_depth)) w in
  match lines with
  | [] =>
      match handler Registry.dbg_cmd_quit None w with
      | None => Fault
      | Some (w', _) => No_return w'
      end
  | line :: lines' =>
      let s := stripwhite line in
      let r :=
        match s with
        | EmptyString => handler Registry.dbg_cmd_step (Some EmptyString) w
        | _ => execute_line s w
        end in
      match r with
      | None => Fault
      | Some (w', debug_readloop) | Some (w', debug_cmd_error) =>
          read_loop open_depth close_depth lines' w'
      | Some (w', ret) => Returned w' ret
      end
  end.

(** [enter_debugger], on the lines the user will type. *)
Definition enter_debugger (p : option target_stack_node_t)
    (p_target : option N) (errcode : Z) (reason : debug_enter_reason_t)
    (lines : list string) (w : world) : outcome :=
  match enter_debugger_prologue p p_target errcode reason w with
  | gate_fault => Fault
  | gate_resume w' => Returned w' continue_execution
  | gate_engage w' =>
      let lv := makelevel (stepping w') in
      match read_loop (depth_glyphs lv "<") (depth_glyphs lv ">") lines w' with
      | Returned w'' ret => Returned (leave_debugger w'') ret
      | o => o
      end
  end.

End Loop.

End Debugger.

(** ** Concrete states for the examples *)

Module Examples.
Import Types Commands Debugger.

Definition no_flags : flags_t :=
  {| basename_filenames := 0; db_level := 0; ignore_errors_flag := 0;
     keep_going_flag := 0; silent_flag := 0; no_shell_trace := 0 |}.

Definition no_report : report_t :=
  {| p_target_loc := None; psz_target_name := EmptyString; i_stack_pos := 0;
     p_stack := None; p_stack_top := None;
     p_floc_stack := None; p_stack_floc_top := None |}.

Definition fresh_init : init_t :=
  {| b_init := false; b_readline_init := false; use_readline_flag := false;
     short_command := Registry.short_command_init; file2lines_ht_size := 0 |}.

Definition makefile_3 : floc_t := {| filenm := "Makefile"; lineno := 3 |}.

(** A target called all at address 1, with tracing bits [t]. *)
Definition target_all (t : Z) : gmap N file_t :=
  {[ 1%N := {| name := "all"; floc := makefile_3; tracing := t |} ]}.

(** A debugger outside any session: step and next counts [st] and [nx],
    make level [lv], last stopped by an explicit call. *)
Definition idle (st nx lv : N) : stepping_t :=
  {| in_debugger := 0; i_debugger_stepping := st; i_debugger_nexting := nx;
     debugger_on_error := 0; last_stop_reason := DEBUG_EXPLICIT_CALL;
     makelevel := lv |}.

(** The state with these counters and that one target. *)
Definition world_of (s : stepping_t) (t : Z) : world :=
  {| flags := no_flags; stepping := s; report := no_report;
     init := fresh_init; files := target_all t; vars := ∅; output := [] |}.

(** The same state with the variable FOO bound to old in the file. *)
Definition world_FOO : world :=
  set_vars {[ "FOO" := {| value := "old"; origin := o_file;
                          fileinfo := makefile_3 |} ]}
           (world_of (idle 0 0 0) 0).

(** Stand-ins for the collaborators that are not among the sources:
    no expansion, no integers, and handlers that keep the state and
    ask for the next line. *)
Definition expand_id (_ : gmap string variable_t) (s : string) : string := s.
Definition no_int (_ : string) : option Z := None.
Definition idle_handler (_ : Registry.dbg_cmd) (_ : option string) (w : world)
    : option (world * debug_return_t) := Some (w, debug_readloop).

(** Handlers of which [dbg_cmd_continue] resumes the build and the
    others ask for the next line. *)
Definition continue_handler (f : Registry.dbg_cmd) (_ : option string)
    (w : world) : option (world * debug_return_t) :=
  match f with
  | Registry.dbg_cmd_continue => Some (w, continue_execution)
  | _ => Some (w, debug_readloop)
  end.

End Examples.

(** ** Runs of calls, used to state the properties *)

Module Scenario.
Import Types Debugger.

(** The arguments of one call of [enter_debugger] and the lines typed
    during it. *)
Record call_t : Type :=
  { c_p : option target_stack_node_t;
    c_target : option N;
    c_errcode : Z;
    c_reason : debug_enter_reason_t;
    c_lines : list string }.

(** A pointer that is NULL or designates a target of the state. *)
Definition valid_target (w : world) (p_target : option N) : Prop :=
  match p_target with
  | None => True
  | Some a => is_Some (files w !! a)
  end.

Definition valid_node (w : world) (p : option target_stack_node_t) : Prop :=
  match p with
  | None => True
  | Some node => valid_target w (Types.p_target node)
  end.

(** The counters of a state, step count first. *)
Definition counters (w : world) : N * N :=
  (i_debugger_stepping (stepping w), i_debugger_nexting (stepping w)).


(** What a silent resume leaves: the state of the call with the reason
    recorded and, when a counter is above one, the counters that are
    not zero decremented. *)
Definition resumed (reason : debug_enter_reason_t) (w : world) : world :=
  let s := with_last_stop_reason reason (stepping w) in
  if (in_debugger s =? DEBUGGER_QUIT_RC)%Z then set_stepping s w
  else if ((1 <? i_debugger_stepping s)%N || (1 <? i_debugger_nexting s)%N)%bool
  then set_stepping (with_counts (decrement (i_debugger_stepping s))
                                 (decrement (i_debugger_nexting s)) s) w
  else set_stepping s w.

(** The targets after the clearing of temporary breakpoints on the
    target at [p_target], the stop reason being [reason]. *)
Definition cleared_files (p_target : option N) (reason : debug_enter_reason_t)
    (m : gmap N file_t) : gmap N file_t :=
  match p_target with
  | None => m
  | Some a =>
      match m !! a with
      | None => m
      | Some f =>
          if (negb (Z.land (tracing f) BRK_TEMP =? 0)%Z
              && clears_temporary reason)%bool
          then <[a := with_tracing BRK_NONE f]> m
          else m
      end
  end.

(** The value [in_debugger] has when the loop starts. *)
Definition entered (errcode : Z) (makelevel : N) : Z :=
  if ((errcode =? -2)%Z && negb (makelevel =? 0)%N)%bool
  then DEBUGGER_QUIT_RC else 1%Z.

(** Three calls in a row on the target at [a] resume silently and leave
    the step count at 2, 1 and 0, and a fourth call stops. *)
Definition three_silent_then_stop (a : N) (errcode : Z)
    (reason : debug_enter_reason_t) (w : world) : Prop :=
  exists w1 w2 w3 w4,
    enter_debugger_prologue None (Some a) errcode reason w = gate_resume w1
    /\ counters w1 = (2%N, 0%N)
    /\ enter_debugger_prologue None (Some a) errcode reason w1 = gate_resume w2
    /\ counters w2 = (1%N, 0%N)
    /\ enter_debugger_prologue None (Some a) errcode reason w2 = gate_resume w3
    /\ counters w3 = (0%N, 0%N)
    /\ enter_debugger_prologue None (Some a) errcode reason w3 = gate_engage w4.

Section Runs.

Variable variable_expand : gmap string variable_t -> string -> string.
Variable get_int : string -> option Z.
Variable handler :
  Registry.dbg_cmd -> option string -> world -> option (world * debug_return_t).

Definition enter (c : call_t) (w : world) : outcome :=
  enter_debugger variable_expand get_int handler
    (c_p c) (c_target c) (c_errcode c) (c_reason c) (c_lines c) w.

(** Every call of the run returns [continue_execution] from the gate,
    without entering the loop, and leaves the quit state in place. *)
Fixpoint all_resume_in_quit (cs : list call_t) (w : world) : Prop :=
  match cs with
  | [] => True
  | c :: cs' =>
      exists w',
        enter_debugger_prologue (c_p c) (c_target c) (c_errcode c) (c_reason c) w
          = gate_resume w'
        /\ enter c w = Returned w' continue_execution
        /\ in_debugger (stepping w') = DEBUGGER_QUIT_RC
        /\ all_resume_in_quit cs' w'
  end.

(** No handler takes [in_debugger] out of its quit state. *)
Definition keeps_quit : Prop :=
  forall f args w w' r,
    handler f args w = Some (w', r) ->
    in_debugger (stepping w) = DEBUGGER_QUIT_RC ->
    in_debugger (stepping w') = DEBUGGER_QUIT_RC.

End Runs.

End Scenario.

(** ** The history listing and the reference lookups *)

Module History.
Import Types.

(** The number [i] as the format [%5u] prints it: in decimal, with
    blanks on the left up to five characters. *)
Definition pad5 (i : N) : string :=
  let digits := pretty i in
  string_of_list_ascii (repeat " "%char (5 - String.length digits)) ++ digits.

(** The loop of [dbg_cmd_show_command]: one message per entry from the
    index [i] on, the number and the line. *)
Fixpoint show_entries (i : N) (entries : list string) (w : world) : world :=
  match entries with
  | [] => w
  | line :: entries' =>
      show_entries (i + 1) entries' (emit (Printed (pad5 i ++ "  " ++ line)) w)
  end.

(** [dbg_cmd_show_command] (cmd.c, lines 323-343), with the history
    list of the line editor as [history_list()] returns it: NULL, or
    the entries, of which there is at least one. The loop starts at
    index 1. *)
Definition dbg_cmd_show_command (psz_args : option string)
    (hist_list : option (string * list string)) (w : world)
    : world * debug_return_t :=
  match hist_list with
  | None => (w, debug_readloop)
  | Some (_, entries) => (show_entries 1 entries w, debug_readloop)
  end.

End History.

Module Lookup.
Import CString Registry.

(** A text that holds no NUL: the texts a [char*] can designate. *)
Fixpoint no_nul (s : string) : bool :=
  match s with
  | EmptyString => true
  | String c s' => (negb (Ascii.eqb c zero) && no_nul s')%bool
  end.

(** Names in the alphabetic order the tables of cmd.c "should be in":
    every name sorts before all the names after it. *)
Fixpoint ascending (names : list string) : bool :=
  match names with
  | [] => true
  | a :: names' =>
      (forallb (fun b => (strcmp a b <? 0)%Z) names' && ascending names')%bool
  end.

(** The lookups of [find_command] without their early exit: the first
    entry with exactly that alias, or that name, anywhere in the
    table. *)
Definition alias_exact (tbl : list alias_cmd_t) (psz_name : string) : string :=
  match List.find (fun a => String.eqb psz_name (alias a)) tbl with
  | Some a => command a
  | None => psz_name
  end.

Definition command_exact (tbl : list long_cmd_t) (psz_name : string)
    : option nat :=
  (fun c => nat_of_ascii (short_name c))
    <$> List.find (fun c => String.eqb psz_name (long_name c)) tbl.

Definition find_command_exact (psz_name : string) : option nat :=
  command_exact commands (alias_exact aliases psz_name).

End Lookup.

(** * Properties *)

Module GateFacts.
Import CString Fns Types Variables Commands Debugger Scenario.

Lemma decrement_gt1 (n : N) : (1 < n)%N -> decrement n = (n - 1)%N.
Proof. unfold decrement. intros H. destruct (N.eqb_spec n 0); [lia|reflexivity]. Qed.

(** In the quit state the gate returns at once: only the reason is
    recorded. *)
Lemma gate_in_quit p_target errcode reason w :
  in_debugger (stepping w) = DEBUGGER_QUIT_RC ->
  debugger_gate p_target errcode reason w
  = gate_resume (set_stepping (with_last_stop_reason reason (stepping w)) w).
Proof.
  intros Hq. unfold debugger_gate. cbn [stepping set_stepping with_last_stop_reason in_debugger].
  rewrite Hq. reflexivity.
Qed.

Lemma gate_resume_inv p_target errcode reason w w' :
  debugger_gate p_target errcode reason w = gate_resume w' ->
  w' = resumed reason w.
Proof.
  unfold debugger_gate, resumed.
  cbn [stepping set_stepping with_last_stop_reason in_debugger
       i_debugger_stepping i_debugger_nexting debugger_on_error].
  destruct (in_debugger (stepping w) =? DEBUGGER_QUIT_RC)%Z.
  { intros [= <-]. reflexivity. }
  destruct ((1 <? i_debugger_stepping (stepping w))%N
            || (1 <? i_debugger_nexting (stepping w))%N)%bool.
  { destruct (deref _ p_target) as [f|]; [|discriminate].
    destruct (tracing f =? 0)%Z; [|discriminate].
    intros [= <-]. reflexivity. }
  destruct ((debugger_on_error (stepping w) =? 0)%Z && _)%bool; [|discriminate].
  destruct p_target as [a|]; [|discriminate].
  destruct (deref _ (Some a)) as [f|]; [|discriminate].
  destruct (_ && _)%bool; [|discriminate].
  intros [= <-]. reflexivity.
Qed.

(** The prologue resumes exactly when the gate does. *)
Lemma prologue_resume_iff p p_target errcode reason w w' :
  enter_debugger_prologue p p_target errcode reason w = gate_resume w' <->
  debugger_gate p_target errcode reason w = gate_resume w'.
Proof.
  unfold enter_debugger_prologue.
  destruct (debugger_gate p_target errcode reason w) as [|w1|w1]; try tauto.
  split; [|discriminate].
  destruct (clear_temporary_breakpoints p_target w1) as [w2|]; [|discriminate].
  destruct (report_frame p p_target (initialize_once w2)); discriminate.
Qed.

(** An engaged gate has recorded the reason and left the targets, the
    variables and the quit flag alone. *)
Lemma gate_engage_inv p_target errcode reason w w1 :
  debugger_gate p_target errcode reason w = gate_engage w1 ->
  files w1 = files w /\ flags w1 = flags w /\ vars w1 = vars w
  /\ last_stop_reason (stepping w1) = reason
  /\ in_debugger (stepping w1) = in_debugger (stepping w)
  /\ makelevel (stepping w1) = makelevel (stepping w)
  /\ in_debugger (stepping w) <> DEBUGGER_QUIT_RC.
Proof.
  unfold debugger_gate.
  cbn [stepping set_stepping with_last_stop_reason in_debugger
       i_debugger_stepping i_debugger_nexting debugger_on_error].
  destruct (Z.eqb_spec (in_debugger (stepping w)) DEBUGGER_QUIT_RC) as [|Hq];
    [discriminate|].
  destruct ((1 <? i_debugger_stepping (stepping w))%N
            || (1 <? i_debugger_nexting (stepping w))%N)%bool.
  { destruct (deref _ p_target) as [f|]; [|discriminate].
    destruct (tracing f =? 0)%Z; [discriminate|].
    intros [= <-]. cbn. tauto. }
  destruct ((debugger_on_error (stepping w) =? 0)%Z && _)%bool.
  2:{ intros [= <-]. cbn. tauto. }
  destruct p_target as [a|].
  2:{ intros [= <-]. cbn. tauto. }
  destruct (deref _ (Some a)) as [f|]; [|discriminate].
  destruct (_ && _)%bool; [discriminate|].
  intros [= <-]. cbn. tauto.
Qed.

Lemma announce_state errcode w :
  files (announce errcode w) = files w
  /\ flags (announce errcode w) = flags w
  /\ vars (announce errcode w) = vars w
  /\ init (announce errcode w) = init w
  /\ report (announce errcode w) = report w
  /\ stepping (announce errcode w)
     = with_in_debugger (entered errcode (makelevel (stepping w))) (stepping w).
Proof.
  unfold announce, entered.
  destruct (Z.eqb_spec errcode 0) as [->|H0]; [cbn; tauto|].
  destruct (Z.eqb_spec errcode (-1)) as [->|H1]; [cbn; tauto|].
  destruct (Z.eqb_spec errcode (-2)) as [->|H2]; [|cbn; tauto].
  cbn [stepping set_stepping with_in_debugger makelevel andb].
  destruct (makelevel (stepping w) =? 0)%N; cbn; tauto.
Qed.

Lemma report_frame_state p p_target w w' :
  report_frame p p_target w = Some w' ->
  files w' = files w /\ flags w' = flags w /\ vars w' = vars w
  /\ init w' = init w /\ stepping w' = stepping w /\ output w' = output w.
Proof.
  unfold report_frame.
  destruct (match p with Some _ => _ | None => _ end) as [a|].
  - destruct (files w !! a) as [f|]; [|discriminate].
    intros [= <-]. cbn. tauto.
  - intros [= <-]. cbn. tauto.
Qed.

Lemma report_frame_valid p p_target w :
  valid_node w p -> valid_target w p_target ->
  is_Some (report_frame p p_target w).
Proof.
  unfold report_frame, valid_node, valid_target. intros Hp Ht.
  destruct p as [[[b|]]|]; cbn in *.
  - destruct Hp as [f ->]. cbn. eauto.
  - destruct p_target as [a|]; [destruct Ht as [f ->]|]; cbn; eauto.
  - destruct p_target as [a|]; [destruct Ht as [f ->]|]; cbn; eauto.
Qed.

Lemma clear_temporary_state p_target w w' :
  clear_temporary_breakpoints p_target w = Some w' ->
  files w' = cleared_files p_target (last_stop_reason (stepping w)) (files w)
  /\ flags w' = flags w /\ vars w' = vars w /\ init w' = init w
  /\ stepping w' = stepping w /\ report w' = report w /\ output w' = output w.
Proof.
  unfold clear_temporary_breakpoints, cleared_files.
  destruct p_target as [a|]; [|intros [= <-]; tauto].
  destruct (files w !! a) as [f|]; [|discriminate]. cbn.
  destruct (_ && _)%bool; intros [= <-]; cbn; tauto.
Qed.

Lemma clear_temporary_valid p_target w :
  valid_target w p_target -> is_Some (clear_temporary_breakpoints p_target w).
Proof.
  unfold clear_temporary_breakpoints, valid_target.
  destruct p_target as [a|]; [|eauto].
  intros [f ->]. cbn. destruct (_ && _)%bool; eauto.
Qed.

Lemma cleared_files_valid p_target reason m (q : option N) :
  match q with Some b => is_Some (m !! b) | None => True end ->
  match q with
  | Some b => is_Some (cleared_files p_target reason m !! b)
  | None => True
  end.
Proof.
  destruct q as [b|]; [|tauto]. unfold cleared_files.
  destruct p_target as [a|]; [|tauto].
  destruct (m !! a) as [f|] eqn:E; [|tauto].
  destruct (_ && _)%bool; [|tauto].
  intros Hb. destruct (decide (a = b)) as [->|Hne].
  - rewrite lookup_insert_eq. eauto.
  - rewrite lookup_insert_ne; assumption.
Qed.

(** The state in which the loop starts, when it does. *)
Lemma prologue_engage_inv p p_target errcode reason w w' :
  enter_debugger_prologue p p_target errcode reason w = gate_engage w' ->
  (exists w1, debugger_gate p_target errcode reason w = gate_engage w1
              /\ counters w' = counters w1)
  /\ in_debugger (stepping w) <> DEBUGGER_QUIT_RC
  /\ files w' = cleared_files p_target reason (files w)
  /\ flags w' = flags w /\ vars w' = vars w
  /\ last_stop_reason (stepping w') = reason
  /\ makelevel (stepping w') = makelevel (stepping w)
  /\ in_debugger (stepping w') = entered errcode (makelevel (stepping w)).
Proof.
  unfold enter_debugger_prologue.
  destruct (debugger_gate p_target errcode reason w) as [|w1|w1] eqn:Hg;
    try discriminate.
  destruct (gate_engage_inv _ _ _ _ _ Hg) as (Hf & Hfl & Hv & Hr & Hi & Hm & Hq).
  destruct (clear_temporary_breakpoints p_target w1) as [w2|] eqn:Hc;
    [|discriminate].
  destruct (clear_temporary_state _ _ _ Hc) as (Hf2 & Hfl2 & Hv2 & _ & Hs2 & _).
  destruct (report_frame p p_target (initialize_once w2)) as [w3|] eqn:Hrf;
    [|discriminate].
  destruct (report_frame_state _ _ _ _ Hrf) as (Hf3 & Hfl3 & Hv3 & _ & Hs3 & _).
  destruct (announce_state errcode w3) as (Hf4 & Hfl4 & Hv4 & _ & _ & Hs4).
  intros [= <-]. unfold counters.
  cbn [files flags vars stepping emit].
  rewrite Hf4, Hfl4, Hv4, Hs4, Hf3, Hfl3, Hv3, Hs3. cbn.
  rewrite Hf2, Hfl2, Hv2, Hs2, Hr, Hf, Hfl, Hv, Hm.
  repeat split; try reflexivity; try assumption.
  exists w1. split; reflexivity.
Qed.

(** An engaged gate on valid pointers reaches the loop. *)
Lemma prologue_engages p p_target errcode reason w w1 :
  debugger_gate p_target errcode reason w = gate_engage w1 ->
  valid_node w p -> valid_target w p_target ->
  exists w', enter_debugger_prologue p p_target errcode reason w = gate_engage w'.
Proof.
  intros Hg Hp Ht. unfold enter_debugger_prologue. rewrite Hg.
  destruct (gate_engage_inv _ _ _ _ _ Hg) as (Hf & _).
  assert (Ht1 : valid_target w1 p_target).
  { unfold valid_target in *. now rewrite Hf. }
  destruct (clear_temporary_valid _ _ Ht1) as [w2 Hc]. rewrite Hc.
  destruct (clear_temporary_state _ _ _ Hc) as (Hf2 & _).
  assert (Hv : forall q, valid_target w q -> valid_target (initialize_once w2) q).
  { intros q Hq. unfold valid_target in *. cbn [initialize_once files set_init].
    rewrite Hf2, Hf. now apply (cleared_files_valid p_target _ (files w) q). }
  destruct (report_frame_valid p p_target (initialize_once w2)) as [w3 Hr].
  { destruct p as [node|]; [|exact I]. apply Hv, Hp. }
  { apply Hv, Ht. }
  rewrite Hr. eauto.
Qed.

End GateFacts.

(** ** The [set] command and the assignment of variables *)

Module CommandFacts.
Import CString Fns Types Variables Commands Examples.

Lemma substring_full (s : string) : String.substring 0 (String.length s) s = s.
Proof. induction s as [|c s IH]; cbn; [reflexivity|now rewrite IH]. Qed.

(** A name followed by a NUL is another text than the name. *)
Lemma append_nul_neq (s : string) : s ++ String zero EmptyString <> s.
Proof.
  induction s as [|c s IH]; simpl; [discriminate|].
  intros [= H]. exact (IH H).
Qed.

(** The loop on the character after the word runs once at most: what
    it leaves is not a character it would go on from, and more rounds
    change nothing. *)
Lemma bump_while_exits (n : nat) (c : ascii) :
  let c' := bump_while (S n) c in
  (negb (Ascii.eqb c' zero) && whitespace c')%bool = false
  /\ c' = bump_while 1 c.
Proof.
  cbn [bump_while].
  destruct (negb (Ascii.eqb c zero) && whitespace c)%bool eqn:E.
  - unfold whitespace in E.
    apply andb_prop in E as [_ E]. apply orb_prop in E as [E|E];
      apply Ascii.eqb_eq in E; subst c; destruct n; cbn; auto.
  - rewrite E. auto.
Qed.

(** A blank becomes an exclamation mark, a tab a line feed, any other
    character stays. *)
Lemma bump_while_char (c : ascii) :
  bump_while 256 c
  = if Ascii.eqb c " " then "!"%char
    else if Ascii.eqb c "009" then "010"%char else c.
Proof.
  destruct (bump_while_exits 255 c) as [_ ->]. cbn [bump_while].
  unfold whitespace.
  destruct (Ascii.eqb_spec c " ") as [->|H1]; [reflexivity|].
  destruct (Ascii.eqb_spec c "009") as [->|H2]; [reflexivity|].
  cbn. now rewrite Bool.andb_false_r.
Qed.

(** No test of the chain accepts a word that is, for each option, too
    short or not a prefix of its name. *)
Lemma select_branch_None (psz_varname : string) :
  (forall b, In b set_branches ->
     is_abbrev_of psz_varname (branch_word b) (branch_min b) = false) ->
  select_branch psz_varname = None.
Proof.
  intros H. unfold select_branch.
  destruct (List.find _ set_branches) as [b|] eqn:E; [|reflexivity].
  apply List.find_some in E as [Hin Hb]. rewrite (H b Hin) in Hb. discriminate.
Qed.

Section Handlers.

Variable variable_expand : gmap string variable_t -> string -> string.
Variable get_int : string -> option Z.

(** [dbg_cmd_set_var] always returns [debug_readloop], and writes
    nothing but variables and messages. *)
Lemma dbg_cmd_set_var_returns psz_args expand w :
  exists w', dbg_cmd_set_var variable_expand psz_args expand w
             = Some (w', debug_readloop)
    /\ flags w' = flags w /\ stepping w' = stepping w /\ files w' = files w
    /\ init w' = init w /\ report w' = report w.
Proof using variable_expand.
  unfold dbg_cmd_set_var.
  destruct psz_args as [[|c s]|]; try (eexists; split; [reflexivity|cbn; repeat split; reflexivity]).
  destruct (get_word (String c s)) as [psz_varname rest].
  unfold lookup_variable. rewrite substring_full.
  destruct (vars w !! psz_varname) as [v|] eqn:E; cbn [fmap option_fmap option_map].
  - unfold define_variable_in_set, name_bytes. cbn [fst snd].
    rewrite Nat.leb_refl. cbn.
    eexists; split; [reflexivity|cbn; repeat split; reflexivity].
  - unfold try_without_dollar.
    destruct psz_varname as [|d nm]; [eexists; split; [reflexivity|repeat split; reflexivity]|].
    destruct (Ascii.eqb d "$"); [|eexists; split; [reflexivity|repeat split; reflexivity]].
    unfold lookup_variable. rewrite substring_full.
    destruct (vars w !! nm) as [v|]; cbn [fmap option_fmap option_map];
      [|eexists; split; [reflexivity|repeat split; reflexivity]].
    unfold define_variable_in_set, name_bytes. cbn [fst snd String.length].
    replace (S (String.length nm) <=? String.length nm)%nat with false
      by (symmetry; apply Nat.leb_gt; lia).
    rewrite Nat.eqb_refl. cbn.
    eexists; split; [reflexivity|cbn; repeat split; reflexivity].
Qed.

(** Without a variable name the handler prints its message, returns
    [debug_readloop] and writes no variable. *)
Lemma dbg_cmd_set_var_no_name psz_args expand w :
  psz_args = None \/ psz_args = Some EmptyString ->
  dbg_cmd_set_var variable_expand psz_args expand w
  = Some (emit (Printed "You need to supply a variable name.") w, debug_readloop).
Proof using variable_expand. intros [->| ->]; reflexivity. Qed.

(** [dbg_cmd_set] always returns [debug_readloop]; it leaves the
    stepping state, the targets and the slot table alone. *)
Lemma dbg_cmd_set_returns psz_args w :
  exists w', dbg_cmd_set variable_expand get_int psz_args w
             = Some (w', debug_readloop)
    /\ stepping w' = stepping w /\ files w' = files w /\ init w' = init w
    /\ report w' = report w.
Proof.
  assert (Hlist : forall l w0,
    let w1 := fold_left (fun w' s => emit (Help_entry "set" (sub_name s)) w') l w0 in
    stepping w1 = stepping w0 /\ files w1 = files w0 /\ init w1 = init w0
    /\ report w1 = report w0).
  { induction l as [|s l IH]; intros w0; cbn; [tauto|]. apply (IH (emit _ w0)). }
  unfold dbg_cmd_set.
  destruct psz_args as [[|c s]|];
    try (eexists; split; [reflexivity|apply Hlist]).
  destruct (get_word (String c s)) as [psz_varname rest].
  destruct (select_branch psz_varname) as [[]|];
    try (eexists; split; [reflexivity|cbn; tauto]).
  - destruct (dbg_cmd_set_var_returns (Some (bump_leading rest)) 3 w)
      as (w' & -> & _ & ? & ? & ? & ?).
    exists w'. repeat split; assumption.
  - destruct (get_int (bump_leading rest));
      eexists; (split; [reflexivity|cbn; tauto]).
  - destruct (dbg_cmd_set_var_returns (Some (bump_leading rest)) 1 w)
      as (w' & -> & _ & ? & ? & ? & ?).
    exists w'. repeat split; assumption.
Qed.

End Handlers.

End CommandFacts.

Module CommandClaims.
Import CString Fns Types Variables Commands Examples CommandFacts.

Lemma split_word_app (name rest : string) :
  is_word name = true ->
  split_word (name ++ String " " rest) = (name, rest).
Proof.
  induction name as [|c name IH]; simpl; [reflexivity|].
  intros H. apply andb_prop in H as [Hc Hn].
  destruct (whitespace c); [discriminate|]. now rewrite (IH Hn).
Qed.

Lemma get_word_app (c : ascii) (name rest : string) :
  is_word (String c name) = true ->
  get_word (String c name ++ String " " rest) = (String c name, rest).
Proof.
  intros H. unfold get_word.
  replace (skip_whitespace (String c name ++ String " " rest))
    with (String c name ++ String " " rest).
  - now apply split_word_app.
  - simpl in *. apply andb_prop in H as [Hc _].
    destruct (whitespace c); [discriminate|reflexivity].
Qed.

(** C3. With an argument, [set trace] does not write the shell-trace
    flag the option is bound to in [set_subcommands]: for each of on,
    off and toggle the argument is applied to [silent_flag], and
    [no_shell_trace] keeps its value. *)
Theorem set_trace_with_argument_writes_silent
    (variable_expand : gmap string variable_t -> string -> string)
    (get_int : string -> option Z) (w : world) :
  var <$> List.find (fun s => String.eqb (sub_name s) "trace") set_subcommands
    = Some (Some ref_no_shell_trace)
  /\ Forall (fun arg =>
       exists w',
         dbg_cmd_set variable_expand get_int (Some ("trace " ++ arg)) w
           = Some (w', debug_readloop)
         /\ flags w' = on_off_toggle arg ref_silent_flag (flags w)
         /\ no_shell_trace (flags w') = no_shell_trace (flags w))
     ["on"; "off"; "toggle"].
Proof.
  split; [reflexivity|].
  repeat constructor; eexists; (split; [reflexivity|]); split; reflexivity.
Qed.

(** The case of C3 on a state whose flags are all zero: [set trace on]
    turns [silent_flag] on and leaves [no_shell_trace] off. *)
Lemma set_trace_on_example :
  (fun r => flags (fst r)) <$> dbg_cmd_set expand_id no_int (Some "trace on") world_FOO
  = Some (put_flag ref_silent_flag 1 no_flags).
Proof. reflexivity. Qed.

(** C4. Assigning through the name with the sigil does not write the
    binding the retry found: the define is given the name without the
    sigil and the length of the name with it, so it binds the bytes of
    the name followed by NUL (for FOO the four bytes F, O, O, NUL);
    the binding the retry found keeps its value. *)
Theorem set_var_with_sigil_misses_binding
    (variable_expand : gmap string variable_t -> string -> string)
    (w : world) (nm val : string) (v : variable_t) :
  is_word nm = true ->
  vars w !! nm = Some v ->
  vars w !! String "$" nm = None ->
  exists w',
    dbg_cmd_set_var variable_expand (Some (String "$" nm ++ " " ++ val)) 0 w
      = Some (w', debug_readloop)
    /\ vars w' !! nm = Some v
    /\ vars w' !! (nm ++ String zero EmptyString)
       = Some {| value := bump_leading val; origin := o_debugger;
                 fileinfo := fileinfo v |}.
Proof.
  intros Hword Hnm Hsigil. unfold dbg_cmd_set_var.
  change (String "$" nm ++ " " ++ val) with (String "$" (nm ++ String " " val)).
  change (String "$" (nm ++ String " " val))
    with (String "$" nm ++ String " " val) at 2.
  rewrite (get_word_app "$" nm val) by exact Hword.
  unfold lookup_variable at 1. rewrite substring_full, Hsigil.
  cbn [fmap option_fmap option_map].
  unfold try_without_dollar, lookup_variable. cbn [Ascii.eqb Bool.eqb].
  rewrite substring_full, Hnm. cbn [fmap option_fmap option_map fst snd].
  unfold define_variable_in_set, name_bytes. cbn [String.length].
  replace (S (String.length nm) <=? String.length nm)%nat with false
    by (symmetry; apply Nat.leb_gt; lia).
  rewrite Nat.eqb_refl. cbn.
  eexists. split; [reflexivity|]. cbn [vars set_vars emit]. split.
  - rewrite lookup_insert_ne; [assumption|]. apply append_nul_neq.
  - apply lookup_insert_eq.
Qed.

Lemma set_var_with_sigil_misses_binding_witness :
  exists w',
    dbg_cmd_set_var expand_id (Some "$FOO bar") 0 world_FOO
      = Some (w', debug_readloop)
    /\ vars w' !! "FOO"
       = Some {| value := "old"; origin := o_file; fileinfo := makefile_3 |}
    /\ vars w' !! String "F" (String "O" (String "O" (String zero EmptyString)))
       = Some {| value := "bar"; origin := o_debugger; fileinfo := makefile_3 |}.
Proof.
  apply (set_var_with_sigil_misses_binding expand_id world_FOO "FOO" "bar"
           {| value := "old"; origin := o_file; fileinfo := makefile_3 |});
    reflexivity.
Defined.

(** C7. A word that is, for every option of the chain, shorter than
    the least length asked or not a prefix of the name selects no
    option, and [dbg_cmd_set] then returns with every flag as it was;
    the word deb selects the option debug, the word d selects none. *)
Theorem set_rejects_short_or_unknown_option
    (variable_expand : gmap string variable_t -> string -> string)
    (get_int : string -> option Z)
    (psz_args psz_varname rest : string) (w : world) :
  psz_args <> EmptyString ->
  get_word psz_args = (psz_varname, rest) ->
  (forall b, In b set_branches ->
     (String.length psz_varname < branch_min b)%nat
     \/ String.prefix psz_varname (branch_word b) = false) ->
  select_branch "deb" = Some br_debug
  /\ select_branch "d" = None
  /\ select_branch psz_varname = None
  /\ exists w',
       dbg_cmd_set variable_expand get_int (Some psz_args) w
         = Some (w', debug_readloop)
       /\ flags w' = flags w.
Proof.
  intros Hne Hword Hrej.
  assert (Hsel : select_branch psz_varname = None).
  { apply select_branch_None. intros b Hb. unfold is_abbrev_of.
    destruct (Hrej b Hb) as [Hlen| ->].
    - replace (branch_min b <=? String.length psz_varname)%nat with false;
        [reflexivity|]. symmetry. apply Nat.leb_gt. exact Hlen.
    - apply Bool.andb_false_r. }
  repeat split; try reflexivity; try exact Hsel.
  unfold dbg_cmd_set. destruct psz_args as [|c s]; [congruence|].
  rewrite Hword, Hsel.
  destruct (dbg_cmd_set_var_returns variable_expand (Some (bump_leading rest)) 1 w)
    as (w' & Hw' & Hf & _).
  exists w'. split; assumption.
Qed.

Lemma set_rejects_short_or_unknown_option_witness :
  select_branch "deb" = Some br_debug
  /\ select_branch "d" = None
  /\ select_branch "d" = None
  /\ exists w',
       dbg_cmd_set expand_id no_int (Some "d on") world_FOO
         = Some (w', debug_readloop)
       /\ flags w' = flags world_FOO.
Proof.
  apply (set_rejects_short_or_unknown_option expand_id no_int "d on" "d" "on").
  - discriminate.
  - reflexivity.
  - intros b _. left. destruct b; cbn; lia.
Defined.

(** C9. What the handler stores is not the rest of the text without
    its leading whitespace: with two blanks between the name and the
    value, the first is the end of the name and the second is turned
    into an exclamation mark that stays in front of the value. *)
Theorem set_var_two_blanks_store_bang
    (variable_expand : gmap string variable_t -> string -> string)
    (w : world) (c : ascii) (nm val : string) (v : variable_t) :
  is_word (String c nm) = true ->
  vars w !! String c nm = Some v ->
  exists w',
    dbg_cmd_set_var variable_expand (Some (String c nm ++ "  " ++ val)) 0 w
      = Some (w', debug_readloop)
    /\ value <$> vars w' !! String c nm = Some (String "!" val).
Proof.
  intros Hword Hv. unfold dbg_cmd_set_var.
  change (String c nm ++ "  " ++ val)
    with (String c (nm ++ String " " (String " " val))).
  change (String c (nm ++ String " " (String " " val)))
    with (String c nm ++ String " " (String " " val)) at 2.
  rewrite (get_word_app c nm (String " " val) Hword).
  unfold lookup_variable. rewrite substring_full, Hv.
  cbn [fmap option_fmap option_map fst snd].
  unfold define_variable_in_set, name_bytes. rewrite Nat.leb_refl.
  rewrite substring_full. cbn.
  eexists. split; [reflexivity|]. cbn [vars set_vars emit].
  now rewrite lookup_insert_eq.
Qed.

Lemma set_var_two_blanks_store_bang_witness :
  exists w',
    dbg_cmd_set_var expand_id (Some "FOO  bar") 0 world_FOO
      = Some (w', debug_readloop)
    /\ value <$> vars w' !! "FOO" = Some "!bar".
Proof.
  apply (set_var_two_blanks_store_bang expand_id world_FOO "F" "OO" "bar"
           {| value := "old"; origin := o_file; fileinfo := makefile_3 |});
    reflexivity.
Defined.

End CommandClaims.

(** ** The decision to stop and the temporary breakpoints *)

Module SteppingClaims.
Import CString Fns Types Variables Commands Debugger Scenario Examples.
Import GateFacts CommandFacts.

(** A counter above one on a frame without trace flag: the call
    resumes silently and every counter that is not zero loses one. *)
Lemma gate_skips a f errcode reason w :
  files w !! a = Some f -> tracing f = 0%Z ->
  in_debugger (stepping w) <> DEBUGGER_QUIT_RC ->
  (1 < i_debugger_stepping (stepping w)
   \/ 1 < i_debugger_nexting (stepping w))%N ->
  debugger_gate (Some a) errcode reason w = gate_resume (resumed reason w)
  /\ counters (resumed reason w)
     = (decrement (i_debugger_stepping (stepping w)),
        decrement (i_debugger_nexting (stepping w)))
  /\ files (resumed reason w) = files w
  /\ in_debugger (stepping (resumed reason w)) = in_debugger (stepping w).
Proof.
  intros Hf Ht Hq Hc. unfold debugger_gate, resumed, counters.
  cbn [stepping set_stepping with_last_stop_reason in_debugger
       i_debugger_stepping i_debugger_nexting debugger_on_error].
  destruct (Z.eqb_spec (in_debugger (stepping w)) DEBUGGER_QUIT_RC); [tauto|].
  replace ((1 <? i_debugger_stepping (stepping w))%N
           || (1 <? i_debugger_nexting (stepping w))%N)%bool with true.
  2:{ symmetry. apply orb_true_intro. destruct Hc; [left|right];
      now apply N.ltb_lt. }
  unfold deref. cbn. rewrite Hf. cbn. rewrite Ht. cbn. tauto.
Qed.

(** No counter above one and a counter that is not zero: the call
    stops, with the counters as they were. *)
Lemma gate_stops_on_last_step p_target errcode reason w :
  in_debugger (stepping w) <> DEBUGGER_QUIT_RC ->
  (i_debugger_stepping (stepping w) <= 1)%N ->
  (i_debugger_nexting (stepping w) <= 1)%N ->
  (i_debugger_stepping (stepping w) <> 0
   \/ i_debugger_nexting (stepping w) <> 0)%N ->
  debugger_gate p_target errcode reason w
  = gate_engage (set_stepping (with_last_stop_reason reason (stepping w)) w).
Proof.
  intros Hq Hs Hn Hnz. unfold debugger_gate.
  cbn [stepping set_stepping with_last_stop_reason in_debugger
       i_debugger_stepping i_debugger_nexting debugger_on_error].
  destruct (Z.eqb_spec (in_debugger (stepping w)) DEBUGGER_QUIT_RC); [tauto|].
  replace (1 <? i_debugger_stepping (stepping w))%N with false
    by (symmetry; apply N.ltb_ge; exact Hs).
  replace (1 <? i_debugger_nexting (stepping w))%N with false
    by (symmetry; apply N.ltb_ge; exact Hn).
  cbn [orb].
  replace (negb (negb (i_debugger_stepping (stepping w) =? 0)%N
                 || negb (i_debugger_nexting (stepping w) =? 0)%N)) with false.
  - now rewrite Bool.andb_false_r.
  - symmetry. apply Bool.negb_false_iff, orb_true_intro.
    destruct Hnz as [H|H]; [left|right];
      apply Bool.negb_true_iff, N.eqb_neq; exact H.
Qed.

(** C1, as the specification states it, fails on a step count of
    three: the third call does not resume. *)
Lemma three_silent_then_stop_fails :
  ~ three_silent_then_stop 1 0 DEBUG_BRKPT_BEFORE_PREREQ (world_of (idle 3 0 0) 0).
Proof.
  intros (w1 & w2 & w3 & w4 & H1 & _ & H2 & _ & H3 & _).
  apply prologue_resume_iff, gate_resume_inv in H1. subst w1.
  apply prologue_resume_iff, gate_resume_inv in H2. subst w2.
  apply prologue_resume_iff in H3. vm_compute in H3. discriminate.
Qed.

(** C1, amended. From a step count of three and a next count of zero,
    on a frame without trace flag, the first two calls resume silently
    and leave the step count at 2, then 1; the third call stops, with
    the step count still 1. *)
Theorem step_count_three_stops_at_third
    (w : world) (a : N) (f : file_t)
    (p1 p2 p3 : option target_stack_node_t) (e1 e2 e3 : Z)
    (r1 r2 r3 : debug_enter_reason_t) :
  files w !! a = Some f -> tracing f = 0%Z ->
  counters w = (3%N, 0%N) ->
  in_debugger (stepping w) <> DEBUGGER_QUIT_RC ->
  valid_node w p3 ->
  exists w1 w2 w3,
    enter_debugger_prologue p1 (Some a) e1 r1 w = gate_resume w1
    /\ counters w1 = (2%N, 0%N)
    /\ enter_debugger_prologue p2 (Some a) e2 r2 w1 = gate_resume w2
    /\ counters w2 = (1%N, 0%N)
    /\ enter_debugger_prologue p3 (Some a) e3 r3 w2 = gate_engage w3
    /\ counters w3 = (1%N, 0%N).
Proof.
  intros Hf Ht Hc Hq Hp. unfold counters in Hc. injection Hc as Hs Hn.
  destruct (gate_skips a f e1 r1 w Hf Ht Hq) as (G1 & C1 & F1 & Q1);
    [left; lia|].
  rewrite Hs, Hn in C1. change (counters (resumed r1 w) = (2%N, 0%N)) in C1.
  set (w1 := resumed r1 w) in *.
  assert (Hs1 : i_debugger_stepping (stepping w1) = 2%N) by (injection C1; auto).
  assert (Hn1 : i_debugger_nexting (stepping w1) = 0%N) by (injection C1; auto).
  destruct (gate_skips a f e2 r2 w1) as (G2 & C2 & F2 & Q2);
    [now rewrite F1|assumption|now rewrite Q1|left; lia|].
  rewrite Hs1, Hn1 in C2. change (counters (resumed r2 w1) = (1%N, 0%N)) in C2.
  set (w2 := resumed r2 w1) in *.
  assert (Hs2 : i_debugger_stepping (stepping w2) = 1%N) by (injection C2; auto).
  assert (Hn2 : i_debugger_nexting (stepping w2) = 0%N) by (injection C2; auto).
  assert (G3 := gate_stops_on_last_step (Some a) e3 r3 w2).
  rewrite Q2, Q1, Hs2, Hn2 in G3.
  specialize (G3 Hq ltac:(lia) ltac:(lia) ltac:(left; lia)).
  destruct (prologue_engages p3 (Some a) e3 r3 w2 _ G3) as [w3 E3].
  { destruct p3 as [node|]; [|exact I]. cbn in *.
    unfold valid_target in *. now rewrite F2, F1. }
  { cbn. rewrite F2, F1, Hf. eauto. }
  exists w1, w2, w3. repeat split; try assumption.
  - now apply prologue_resume_iff.
  - now apply prologue_resume_iff.
  - destruct (prologue_engage_inv _ _ _ _ _ _ E3) as ((w' & G & ->) & _).
    rewrite G3 in G. injection G as <-. unfold counters. cbn.
    now rewrite Hs2, Hn2.
Qed.

Lemma step_count_three_stops_at_third_witness :
  exists w1 w2 w3,
    enter_debugger_prologue None (Some 1%N) 0 DEBUG_BRKPT_BEFORE_PREREQ
      (world_of (idle 3 0 0) 0) = gate_resume w1
    /\ counters w1 = (2%N, 0%N)
    /\ enter_debugger_prologue None (Some 1%N) 0 DEBUG_BRKPT_BEFORE_PREREQ w1
       = gate_resume w2
    /\ counters w2 = (1%N, 0%N)
    /\ enter_debugger_prologue None (Some 1%N) 0 DEBUG_BRKPT_BEFORE_PREREQ w2
       = gate_engage w3
    /\ counters w3 = (1%N, 0%N).
Proof.
  apply (step_count_three_stops_at_third (world_of (idle 3 0 0) 0) 1
           {| name := "all"; floc := makefile_3; tracing := 0 |}).
  - reflexivity.
  - reflexivity.
  - reflexivity.
  - discriminate.
  - exact I.
Defined.


(** A frame with a trace flag: outside the quit state the gate never
    resumes. *)
Lemma gate_traced a f errcode reason w :
  files w !! a = Some f -> tracing f <> 0%Z ->
  in_debugger (stepping w) <> DEBUGGER_QUIT_RC ->
  exists w1, debugger_gate (Some a) errcode reason w = gate_engage w1.
Proof.
  intros Hf Ht Hq. unfold debugger_gate, deref.
  cbn [stepping set_stepping with_last_stop_reason in_debugger files mbind
       option_bind i_debugger_stepping i_debugger_nexting debugger_on_error].
  rewrite Hf.
  destruct (Z.eqb_spec (in_debugger (stepping w)) DEBUGGER_QUIT_RC); [tauto|].
  destruct (Z.eqb_spec (tracing f) 0); [tauto|].
  destruct (_ || _)%bool; [eauto|].
  destruct (_ && _)%bool; eauto.
Qed.




(** C10. When the clearing fires (temporary flag set, stop reason
    after-command, before-prerequisite or after-prerequisite) the
    whole tracing field of the frame becomes [BRK_NONE]: no bit of it
    is left, the persistent always-stop bits no more than the
    temporary one. *)
Theorem temporary_clearing_erases_all_trace_bits
    (p : option target_stack_node_t) (a : N) (f : file_t) (errcode : Z)
    (reason : debug_enter_reason_t) (w w' : world) :
  files w !! a = Some f ->
  Z.land (tracing f) BRK_TEMP <> 0%Z ->
  clears_temporary reason = true ->
  enter_debugger_prologue p (Some a) errcode reason w = gate_engage w' ->
  exists f',
    files w' !! a = Some f'
    /\ tracing f' = BRK_NONE
    /\ Z.land (tracing f') BRK_ALL = 0%Z
    /\ (forall k, Z.testbit (tracing f') k = false)
    /\ name f' = name f /\ floc f' = floc f.
Proof.
  intros Hf Ht Hr E.
  destruct (prologue_engage_inv _ _ _ _ _ _ E) as (_ & _ & Hfiles & _).
  unfold cleared_files in Hfiles. rewrite Hf, Hr in Hfiles.
  destruct (Z.eqb_spec (Z.land (tracing f) BRK_TEMP) 0) as [|_]; [tauto|].
  cbn [negb andb] in Hfiles. rewrite Hfiles.
  exists (with_tracing BRK_NONE f). split; [apply lookup_insert_eq|].
  cbn. repeat split; try reflexivity. intros k. apply Z.testbit_0_l.
Qed.

Lemma temporary_clearing_erases_all_trace_bits_witness :
  let w := world_of (idle 0 0 0) (Z.lor BRK_TEMP BRK_ALL) in
  let w' := emit (Location (Some 1%N) DEBUG_BRKPT_AFTER_PREREQ)
              (announce 0
                 (set_report
                    {| p_target_loc := Some 1%N; psz_target_name := "all";
                       i_stack_pos := 0; p_stack := None; p_stack_top := None;
                       p_floc_stack := None; p_stack_floc_top := None |}
                    (initialize_once
                       (set_files (target_all BRK_NONE)
                          (set_stepping
                             (with_last_stop_reason DEBUG_BRKPT_AFTER_PREREQ
                                (stepping w)) w))))) in
  exists f',
    files w' !! 1%N = Some f'
    /\ tracing f' = BRK_NONE
    /\ Z.land (tracing f') BRK_ALL = 0%Z
    /\ (forall k, Z.testbit (tracing f') k = false)
    /\ name f' = "all" /\ floc f' = makefile_3.
Proof.
  intros w w'.
  apply (temporary_clearing_erases_all_trace_bits None 1
           {| name := "all"; floc := makefile_3;
              tracing := Z.lor BRK_TEMP BRK_ALL |}
           0 DEBUG_BRKPT_AFTER_PREREQ w w').
  - reflexivity.
  - discriminate.
  - reflexivity.
  - vm_compute. reflexivity.
Defined.

(** C8, as the specification states it, fails: a call that resumes
    silently has recorded its reason as the last stop reason. *)
Lemma silent_resume_overwrites_last_stop_reason :
  let w := world_of (idle 0 0 0) 0 in
  exists w',
    enter_debugger_prologue None (Some 1%N) 0 DEBUG_BRKPT_AFTER_CMD w
      = gate_resume w'
    /\ enter_debugger expand_id no_int idle_handler
         None (Some 1%N) 0 DEBUG_BRKPT_AFTER_CMD [] w
       = Returned w' continue_execution
    /\ last_stop_reason (stepping w) = DEBUG_EXPLICIT_CALL
    /\ last_stop_reason (stepping w') = DEBUG_BRKPT_AFTER_CMD.
Proof.
  intros w. eexists. split; [vm_compute; reflexivity|].
  split; [vm_compute; reflexivity|]. split; reflexivity.
Qed.

(** C8, amended. A call that resumes silently returns
    [continue_execution] without reading a line or printing; it has
    recorded its reason as the last stop reason and, when a counter
    was above one outside the quit state, taken one off every counter
    that was not zero. Nothing else has changed. *)
Theorem silent_resume_records_reason_only
    (variable_expand : gmap string variable_t -> string -> string)
    (get_int : string -> option Z)
    (handler : Registry.dbg_cmd -> option string -> world
               -> option (world * debug_return_t))
    (p : option target_stack_node_t) (p_target : option N) (errcode : Z)
    (reason : debug_enter_reason_t) (lines : list string) (w w' : world) :
  enter_debugger_prologue p p_target errcode reason w = gate_resume w' ->
  enter_debugger variable_expand get_int handler
    p p_target errcode reason lines w = Returned w' continue_execution
  /\ last_stop_reason (stepping w') = reason
  /\ counters w'
     = (if (negb (in_debugger (stepping w) =? DEBUGGER_QUIT_RC)%Z
            && ((1 <? i_debugger_stepping (stepping w))%N
                || (1 <? i_debugger_nexting (stepping w))%N))%bool
        then (decrement (i_debugger_stepping (stepping w)),
              decrement (i_debugger_nexting (stepping w)))
        else counters w)
  /\ in_debugger (stepping w') = in_debugger (stepping w)
  /\ debugger_on_error (stepping w') = debugger_on_error (stepping w)
  /\ makelevel (stepping w') = makelevel (stepping w)
  /\ flags w' = flags w /\ report w' = report w /\ init w' = init w
  /\ files w' = files w /\ vars w' = vars w /\ output w' = output w.
Proof.
  intros E. split.
  { unfold enter_debugger. now rewrite E. }
  apply prologue_resume_iff, gate_resume_inv in E. subst w'.
  unfold resumed, counters.
  cbn [with_last_stop_reason in_debugger i_debugger_stepping i_debugger_nexting].
  destruct (in_debugger (stepping w) =? DEBUGGER_QUIT_RC)%Z;
    [cbn; repeat split; reflexivity|].
  destruct ((1 <? i_debugger_stepping (stepping w))%N
            || (1 <? i_debugger_nexting (stepping w))%N)%bool;
    cbn; repeat split; reflexivity.
Qed.

Lemma silent_resume_records_reason_only_witness :
  let w := world_of (idle 5 1 0) 0 in
  let w' := set_stepping
              {| in_debugger := 0; i_debugger_stepping := 4;
                 i_debugger_nexting := 0; debugger_on_error := 0;
                 last_stop_reason := DEBUG_BRKPT_AFTER_CMD; makelevel := 0 |} w in
  enter_debugger_prologue None (Some 1%N) 0 DEBUG_BRKPT_AFTER_CMD w
    = gate_resume w'
  /\ enter_debugger expand_id no_int idle_handler
       None (Some 1%N) 0 DEBUG_BRKPT_AFTER_CMD ["step"] w
     = Returned w' continue_execution
  /\ counters w' = (4%N, 0%N)
  /\ output w' = [].
Proof.
  intros w w'.
  assert (E : enter_debugger_prologue None (Some 1%N) 0 DEBUG_BRKPT_AFTER_CMD w
              = gate_resume w') by (vm_compute; reflexivity).
  split; [exact E|].
  destruct (silent_resume_records_reason_only expand_id no_int idle_handler
              None (Some 1%N) 0 DEBUG_BRKPT_AFTER_CMD ["step"] w w' E)
    as (H & _ & Hc & _ & _ & _ & _ & _ & _ & _ & _ & Ho).
  split; [exact H|]. split; [exact Hc|exact Ho].
Defined.

Section Quit.

Variable variable_expand : gmap string variable_t -> string -> string.
Variable get_int : string -> option Z.
Variable handler :
  Registry.dbg_cmd -> option string -> world -> option (world * debug_return_t).

(** In the quit state every call returns [continue_execution] from the
    gate and the quit state stays, however many calls follow. *)
Lemma quit_is_absorbing (cs : list call_t) (w : world) :
  in_debugger (stepping w) = DEBUGGER_QUIT_RC ->
  all_resume_in_quit variable_expand get_int handler cs w.
Proof using Type.
  revert w. induction cs as [|c cs IH]; intros w Hq; cbn; [exact I|].
  pose proof (gate_in_quit (c_target c) (c_errcode c) (c_reason c) w Hq) as G.
  apply prologue_resume_iff with (p := c_p c) in G.
  eexists. split; [exact G|]. split.
  - unfold enter, enter_debugger. now rewrite G.
  - split; [exact Hq|]. apply IH. exact Hq.
Qed.

Hypothesis handlers_keep_quit : keeps_quit handler.

Lemma call_keeps_quit f psz_args w w' r :
  call variable_expand get_int handler f psz_args w = Some (w', r) ->
  in_debugger (stepping w) = DEBUGGER_QUIT_RC ->
  in_debugger (stepping w') = DEBUGGER_QUIT_RC.
Proof using handlers_keep_quit.
  intros Hc Hq.
  destruct f; try (exact (handlers_keep_quit _ _ _ _ _ Hc Hq)).
  cbn in Hc.
  destruct (dbg_cmd_set_returns variable_expand get_int psz_args w)
    as (w1 & E & Hs & _).
  rewrite E in Hc. injection Hc as <- _. now rewrite Hs.
Qed.

Lemma execute_line_keeps_quit psz_line w w' r :
  execute_line variable_expand get_int handler psz_line w = Some (w', r) ->
  in_debugger (stepping w) = DEBUGGER_QUIT_RC ->
  in_debugger (stepping w') = DEBUGGER_QUIT_RC.
Proof using handlers_keep_quit.
  unfold execute_line. destruct (get_word psz_line) as [psz_word rest].
  destruct (Registry.resolve_command _ psz_word) as [i|].
  - destruct (Registry.func _) as [f|]; cbn; [|discriminate].
    apply call_keeps_quit.
  - intros [= <- _] Hq. exact Hq.
Qed.

(** The loop returns in the quit state if it started in it. *)
Lemma read_loop_keeps_quit open_depth close_depth lines w w' r :
  read_loop variable_expand get_int handler open_depth close_depth lines w
    = Returned w' r ->
  in_debugger (stepping w) = DEBUGGER_QUIT_RC ->
  in_debugger (stepping w') = DEBUGGER_QUIT_RC.
Proof using handlers_keep_quit.
  revert w. induction lines as [|line lines IH]; intros w; cbn [read_loop].
  - destruct (handler Registry.dbg_cmd_quit None _) as [[w1 r1]|]; discriminate.
  - set (w0 := emit _ w).
    intros H Hq.
    assert (Hq0 : in_debugger (stepping w0) = DEBUGGER_QUIT_RC) by exact Hq.
    destruct (match stripwhite line with
              | EmptyString => _ | String _ _ => _ end) as [[w1 r1]|] eqn:Hstep;
      [|discriminate].
    assert (Hq1 : in_debugger (stepping w1) = DEBUGGER_QUIT_RC).
    { destruct (stripwhite line).
      - exact (handlers_keep_quit _ _ _ _ _ Hstep Hq0).
      - exact (execute_line_keeps_quit _ _ _ _ Hstep Hq0). }
    destruct r1; try (injection H as <- _; exact Hq1);
      exact (IH _ H Hq1).
Qed.

End Quit.

(** C5, as the specification states it, fails while a counter is above
    one: the call with the termination code at a nested level resumes
    without reaching the quit state, and the call after it stops. *)
Lemma nested_termination_skipped_by_step_count :
  let w := world_of (idle 2 0 1) 0 in
  exists w' w'',
    enter_debugger expand_id no_int idle_handler
      None (Some 1%N) (-2) DEBUG_BRKPT_AFTER_CMD [] w
    = Returned w' continue_execution
    /\ in_debugger (stepping w') <> DEBUGGER_QUIT_RC
    /\ enter_debugger_prologue None (Some 1%N) (-2) DEBUG_BRKPT_AFTER_CMD w'
       = gate_engage w''.
Proof.
  intros w. eexists. eexists. split; [vm_compute; reflexivity|].
  split; [vm_compute; discriminate|]. vm_compute. reflexivity.
Qed.

(** C5, amended. A call with the termination code at a nested level
    engages, unless the debugger is already in its quit state or a
    counter above one skips the call on a frame without trace flag. If
    it engages, the loop starts in the quit state; if the handlers
    keep that state, the call returns in it, and from then on every
    call returns [continue_execution] from the gate, the quit state
    staying in place. *)
Theorem nested_termination_quit_is_final
    (variable_expand : gmap string variable_t -> string -> string)
    (get_int : string -> option Z)
    (handler : Registry.dbg_cmd -> option string -> world
               -> option (world * debug_return_t))
    (p : option target_stack_node_t) (p_target : option N)
    (reason : debug_enter_reason_t) (lines : list string)
    (cs : list call_t) (w : world) :
  keeps_quit handler ->
  in_debugger (stepping w) <> DEBUGGER_QUIT_RC ->
  makelevel (stepping w) <> 0%N ->
  ((1 < i_debugger_stepping (stepping w)
    \/ 1 < i_debugger_nexting (stepping w))%N ->
   exists a f, p_target = Some a /\ files w !! a = Some f /\ tracing f <> 0%Z) ->
  valid_node w p -> valid_target w p_target ->
  exists w1,
    enter_debugger_prologue p p_target (-2) reason w = gate_engage w1
    /\ in_debugger (stepping w1) = DEBUGGER_QUIT_RC
    /\ forall w2 ret,
         enter_debugger variable_expand get_int handler
           p p_target (-2) reason lines w = Returned w2 ret ->
         in_debugger (stepping w2) = DEBUGGER_QUIT_RC
         /\ all_resume_in_quit variable_expand get_int handler cs w2.
Proof.
  intros Hk Hq Hlv Hskip Hp Ht.
  assert (G : exists w0, debugger_gate p_target (-2) reason w = gate_engage w0).
  { destruct (N.ltb_spec 1 (i_debugger_stepping (stepping w))) as [Hs|Hs].
    { destruct (Hskip (or_introl Hs)) as (a & f & -> & Hf & Htr).
      now apply (gate_traced a f). }
    destruct (N.ltb_spec 1 (i_debugger_nexting (stepping w))) as [Hn|Hn].
    { destruct (Hskip (or_intror Hn)) as (a & f & -> & Hf & Htr).
      now apply (gate_traced a f). }
    unfold debugger_gate.
    cbn [stepping set_stepping with_last_stop_reason in_debugger
         i_debugger_stepping i_debugger_nexting debugger_on_error].
    destruct (Z.eqb_spec (in_debugger (stepping w)) DEBUGGER_QUIT_RC); [tauto|].
    replace (1 <? i_debugger_stepping (stepping w))%N with false
      by (symmetry; apply N.ltb_ge; exact Hs).
    replace (1 <? i_debugger_nexting (stepping w))%N with false
      by (symmetry; apply N.ltb_ge; exact Hn).
    cbn [orb]. destruct (_ && _)%bool; [|eauto].
    destruct p_target as [a|]; [|eauto].
    destruct Ht as [f Hf]. unfold deref. cbn. rewrite Hf. cbn.
    rewrite Bool.andb_false_r. eauto. }
  destruct G as [w0 G].
  destruct (prologue_engages p p_target (-2) reason w w0 G Hp Ht) as [w1 E].
  exists w1. split; [exact E|].
  destruct (prologue_engage_inv _ _ _ _ _ _ E) as (_ & _ & _ & _ & _ & _ & _ & Hin).
  assert (Hq1 : in_debugger (stepping w1) = DEBUGGER_QUIT_RC).
  { rewrite Hin. unfold entered. cbn.
    destruct (N.eqb_spec (makelevel (stepping w)) 0); [tauto|reflexivity]. }
  split; [exact Hq1|].
  intros w2 ret. unfold enter_debugger. rewrite E.
  destruct (read_loop _ _ _ _ _ lines w1) as [|w3|w3 r3] eqn:L; try discriminate.
  intros [= <- <-].
  pose proof (read_loop_keeps_quit _ _ _ Hk _ _ _ _ _ _ L Hq1) as Hq3.
  assert (Hq4 : in_debugger (stepping (leave_debugger w3)) = DEBUGGER_QUIT_RC).
  { unfold leave_debugger. rewrite Hq3. cbn. exact Hq3. }
  split; [exact Hq4|]. now apply quit_is_absorbing.
Qed.

Lemma continue_handler_keeps_quit : keeps_quit continue_handler.
Proof.
  intros f args w w' r H Hq.
  destruct f; cbn in H; injection H as <- _; exact Hq.
Qed.

(** A run of the amended C5: the end of a nested make, the user types
    continue, the call returns in the quit state. *)
Lemma nested_termination_run :
  exists w2,
    enter_debugger expand_id no_int continue_handler
      None None (-2) DEBUG_EXPLICIT_CALL ["continue"] (world_of (idle 0 0 1) 0)
    = Returned w2 continue_execution
    /\ in_debugger (stepping w2) = DEBUGGER_QUIT_RC.
Proof. eexists. split; vm_compute; reflexivity. Qed.

Lemma nested_termination_quit_is_final_witness :
  let w := world_of (idle 0 0 1) 0 in
  let next := {| c_p := None; c_target := Some 1%N; c_errcode := 0;
                 c_reason := DEBUG_BRKPT_AFTER_CMD; c_lines := ["step"] |} in
  exists w1,
    enter_debugger_prologue None None (-2) DEBUG_EXPLICIT_CALL w = gate_engage w1
    /\ in_debugger (stepping w1) = DEBUGGER_QUIT_RC
    /\ forall w2 ret,
         enter_debugger expand_id no_int continue_handler
           None None (-2) DEBUG_EXPLICIT_CALL ["continue"] w = Returned w2 ret ->
         in_debugger (stepping w2) = DEBUGGER_QUIT_RC
         /\ all_resume_in_quit expand_id no_int continue_handler [next; next] w2.
Proof.
  intros w next.
  apply (nested_termination_quit_is_final expand_id no_int continue_handler
           None None DEBUG_EXPLICIT_CALL ["continue"] [next; next] w).
  - exact continue_handler_keeps_quit.
  - discriminate.
  - discriminate.
  - intros [H|H]; vm_compute in H; discriminate.
  - exact I.
  - exact I.
Defined.

End SteppingClaims.

(** ** The resolution of command names *)

Module RegistryClaims.
Import CString Registry Types Debugger.

(** On the table [cmd_initialize] builds, [execute_line] answers the
    question mark with its unknown-command message and hands the word
    help to the help handler. *)
Lemma execute_line_question_mark_unknown
    (variable_expand : gmap string variable_t -> string -> string)
    (get_int : string -> option Z)
    (handler : dbg_cmd -> option string -> world
               -> option (world * debug_return_t))
    (w : world) :
  short_command (init w) = cmd_initialize short_command_init ->
  execute_line variable_expand get_int handler "?" w
  = Some (emit (Printed "No such debugger command: ?.") w, debug_readloop)
  /\ execute_line variable_expand get_int handler "help" w
     = handler dbg_cmd_help (Some EmptyString) w.
Proof.
  intros Htbl. unfold execute_line. rewrite Htbl. split.
  - change (Fns.get_word "?") with ("?", EmptyString). cbv beta iota.
    replace (resolve_command (cmd_initialize short_command_init) "?")
      with (@None nat) by (vm_compute; reflexivity).
    reflexivity.
  - change (Fns.get_word "help") with ("help", EmptyString). cbv beta iota.
    replace (resolve_command (cmd_initialize short_command_init) "help")
      with (Some 104%nat) by (vm_compute; reflexivity).
    replace (func (slot (cmd_initialize short_command_init) 104))
      with (Some dbg_cmd_help) by (vm_compute; reflexivity).
    reflexivity.
Qed.

(** Through [find_command] every alias reaches the slot of its
    command. *)
Lemma find_command_aliases :
  Forall (fun a => find_command (alias a) = find_command (command a)
                   /\ is_Some (find_command (command a))) aliases.
Proof. repeat constructor; vm_compute; eauto. Qed.

(** C2. The aliases of one character do not resolve as their commands
    do: [execute_line] looks a word of length one up in the slot of
    its character and never in the alias table, so whatever the slot
    table holds, the question mark does not reach the slot of help
    nor L the slot of break; after [cmd_initialize] both are unknown
    commands. The six longer aliases resolve as their commands. *)
Theorem one_letter_aliases_miss_their_command (tbl : list short_cmd_t) :
  resolve_command tbl "?" <> resolve_command tbl "help"
  /\ resolve_command tbl "L" <> resolve_command tbl "break"
  /\ resolve_command (cmd_initialize short_command_init) "?" = None
  /\ resolve_command (cmd_initialize short_command_init) "L" = None
  /\ resolve_command (cmd_initialize short_command_init) "help"
     = Some (nat_of_ascii "h")
  /\ resolve_command (cmd_initialize short_command_init) "break"
     = Some (nat_of_ascii "b")
  /\ Forall (fun a => resolve_command tbl (alias a)
                      = resolve_command tbl (command a))
       (List.filter (fun a => negb (String.length (alias a) =? 1)%nat) aliases).
Proof.
  assert (Hhelp : resolve_command tbl "help" = Some 104%nat)
    by (vm_compute; reflexivity).
  assert (Hbreak : resolve_command tbl "break" = Some 98%nat)
    by (vm_compute; reflexivity).
  assert (Hq : resolve_command tbl "?"
               = match func (slot tbl 63) with Some _ => Some 63%nat | None => None end)
    by reflexivity.
  assert (HL : resolve_command tbl "L"
               = match func (slot tbl 76) with Some _ => Some 76%nat | None => None end)
    by reflexivity.
  split; [|split; [|split; [|split; [|split; [|split]]]]].
  - rewrite Hhelp, Hq. clear. intros H.
    destruct (func (slot tbl 63)); [injection H as H; lia|discriminate H].
  - rewrite Hbreak, HL. clear. intros H.
    destruct (func (slot tbl 76)); [injection H as H; lia|discriminate H].
  - vm_compute; reflexivity.
  - vm_compute; reflexivity.
  - vm_compute; reflexivity.
  - vm_compute; reflexivity.
  - set (longer := List.filter _ aliases). vm_compute in longer. subst longer.
    repeat (constructor; [vm_compute; reflexivity|]). constructor.
Qed.

End RegistryClaims.

(** * Further properties of the code *)

(** ** The registry and [execute_line] *)

Module RegistryExtras.
Import CString Fns Registry Types Debugger Lookup.

Lemma strcmp_refl (a : string) : strcmp a a = 0%Z.
Proof.
  induction a as [|c a IH]; simpl; [reflexivity|].
  now rewrite Ascii.eqb_refl.
Qed.

Lemma code_inj (c d : ascii) : code c = code d -> c = d.
Proof.
  unfold code. intros H. apply N2Z.inj in H.
  rewrite <- (ascii_N_embedding c), <- (ascii_N_embedding d).
  now rewrite H.
Qed.

Lemma code_pos (c : ascii) : Ascii.eqb c zero = false -> (0 < code c)%Z.
Proof.
  intros Hc. unfold code.
  destruct (N_of_ascii c) eqn:E; [|lia].
  assert (c = zero) as ->.
  { rewrite <- (ascii_N_embedding c). now rewrite E. }
  discriminate.
Qed.

(** On texts without NUL, [strcmp] returns 0 for equal texts only. *)
Lemma strcmp_eq (a b : string) :
  no_nul a = true -> no_nul b = true -> strcmp a b = 0%Z -> a = b.
Proof.
  revert b. induction a as [|c a IH]; intros [|d b] Ha Hb; simpl in *.
  - reflexivity.
  - apply andb_prop in Hb as [Hd _]. apply Bool.negb_true_iff in Hd.
    pose proof (code_pos d Hd). lia.
  - apply andb_prop in Ha as [Hc _]. apply Bool.negb_true_iff in Hc.
    pose proof (code_pos c Hc). lia.
  - apply andb_prop in Ha as [_ Ha]. apply andb_prop in Hb as [_ Hb].
    destruct (Ascii.eqb_spec c d) as [->|Hne].
    + intros H. f_equal. now apply IH.
    + intros H. exfalso. apply Hne, code_inj. lia.
Qed.

(** If [a] sorts before [b], [b] sorts after [a]. *)
Lemma strcmp_antisym (a b : string) :
  (strcmp a b < 0)%Z -> (0 < strcmp b a)%Z.
Proof.
  revert b. induction a as [|c a IH]; intros [|d b]; simpl.
  - lia.
  - lia.
  - unfold code. lia.
  - rewrite (Ascii.eqb_sym d c).
    destruct (Ascii.eqb c d); [apply IH|lia].
Qed.

Lemma eqb_of_strcmp (a b : string) :
  strcmp a b <> 0%Z -> String.eqb a b = false.
Proof.
  intros H. apply String.eqb_neq. intros ->. now rewrite strcmp_refl in H.
Qed.

(** A name that sorts before an entry of an ascending table is none of
    the entries after it. *)
Lemma before_head_not_later (name a : string) (rest : list string) :
  (strcmp name a < 0)%Z ->
  forallb (fun b => (strcmp a b <? 0)%Z) rest = true ->
  Forall (fun b => String.eqb name b = false) rest.
Proof.
  intros Hlt Hall. rewrite forallb_forall in Hall.
  apply List.Forall_forall. intros b Hb.
  apply String.eqb_neq. intros ->.
  specialize (Hall b Hb). apply Z.ltb_lt in Hall.
  apply strcmp_antisym in Hlt. lia.
Qed.

Lemma find_none_of_Forall {A} (key : A -> string) (name : string) (l : list A) :
  Forall (fun b => String.eqb name b = false) (map key l) ->
  List.find (fun x => String.eqb name (key x)) l = None.
Proof.
  induction l as [|x l IH]; simpl; [reflexivity|].
  intros H. inversion H as [|? ? Hx Hl]; subst. rewrite Hx. now apply IH.
Qed.

(** On an ascending table of names without NUL the scan with early
    exit finds what the scan of the whole table finds. *)
Lemma scan_commands_exact (tbl : list long_cmd_t) (psz_name : string) :
  no_nul psz_name = true ->
  forallb no_nul (map long_name tbl) = true ->
  ascending (map long_name tbl) = true ->
  scan_commands tbl psz_name = command_exact tbl psz_name.
Proof.
  intros Hn. unfold command_exact.
  induction tbl as [|c tbl IH]; simpl; [reflexivity|].
  intros Hnul Hasc.
  apply andb_prop in Hnul as [Hc Hnul]. apply andb_prop in Hasc as [Hhd Hasc].
  destruct (Z.eqb_spec (strcmp psz_name (long_name c)) 0) as [H0|H0].
  - apply strcmp_eq in H0; [|assumption..]. subst psz_name.
    now rewrite String.eqb_refl.
  - rewrite (eqb_of_strcmp _ _ H0).
    destruct (Z.ltb_spec (strcmp psz_name (long_name c)) 0) as [Hlt|Hge].
    + rewrite (find_none_of_Forall long_name); [reflexivity|].
      exact (before_head_not_later _ _ _ Hlt Hhd).
    + now apply IH.
Qed.

Lemma scan_aliases_exact (tbl : list alias_cmd_t) (psz_name : string) :
  no_nul psz_name = true ->
  forallb no_nul (map alias tbl) = true ->
  ascending (map alias tbl) = true ->
  scan_aliases tbl psz_name = alias_exact tbl psz_name.
Proof.
  intros Hn. unfold alias_exact.
  induction tbl as [|a tbl IH]; simpl; [reflexivity|].
  intros Hnul Hasc.
  apply andb_prop in Hnul as [Ha Hnul]. apply andb_prop in Hasc as [Hhd Hasc].
  destruct (Z.eqb_spec (strcmp psz_name (alias a)) 0) as [H0|H0].
  - apply strcmp_eq in H0; [|assumption..]. subst psz_name.
    now rewrite String.eqb_refl.
  - rewrite (eqb_of_strcmp _ _ H0).
    destruct (Z.ltb_spec (strcmp psz_name (alias a)) 0) as [Hlt|Hge].
    + rewrite (find_none_of_Forall alias); [reflexivity|].
      exact (before_head_not_later _ _ _ Hlt Hhd).
    + now apply IH.
Qed.

Lemma alias_exact_no_nul (psz_name : string) :
  no_nul psz_name = true -> no_nul (alias_exact aliases psz_name) = true.
Proof.
  intros Hn. unfold alias_exact.
  destruct (List.find _ aliases) as [a|] eqn:E; [|exact Hn].
  apply List.find_some in E as [Hin _].
  assert (H : forallb no_nul (map command aliases) = true) by reflexivity.
  rewrite forallb_forall in H. apply H. now apply in_map.
Qed.

Lemma find_command_is_exact (psz_name : string) :
  no_nul psz_name = true -> find_command psz_name = find_command_exact psz_name.
Proof.
  intros Hn. unfold find_command, find_command_exact.
  rewrite (scan_aliases_exact aliases psz_name Hn);
    [|reflexivity|vm_compute; reflexivity].
  apply scan_commands_exact; [|reflexivity|vm_compute; reflexivity].
  now apply alias_exact_no_nul.
Qed.

(** X1. The early exits of [find_command] lose nothing: both tables
    are in ascending order, so for every name (a C string) the result
    is the one a scan of the whole alias table, then of the whole
    command table, for an exactly equal entry gives. *)
Theorem find_command_early_exit_is_exact (psz_name : string) :
  no_nul psz_name = true ->
  ascending (map alias aliases) = true
  /\ ascending (map long_name commands) = true
  /\ find_command psz_name = find_command_exact psz_name.
Proof.
  intros Hn.
  assert (Ha : ascending (map alias aliases) = true) by (vm_compute; reflexivity).
  assert (Hc : ascending (map long_name commands) = true)
    by (vm_compute; reflexivity).
  split; [exact Ha|]. split; [exact Hc|].
  now apply find_command_is_exact.
Qed.

Lemma find_command_early_exit_is_exact_witness :
  no_nul "bt" = true
  /\ ascending (map alias aliases) = true
  /\ ascending (map long_name commands) = true
  /\ find_command "bt" = find_command_exact "bt".
Proof.
  split; [reflexivity|].
  apply (find_command_early_exit_is_exact "bt"). reflexivity.
Defined.

Lemma scan_commands_In (tbl : list long_cmd_t) (psz_name : string) (i : nat) :
  scan_commands tbl psz_name = Some i ->
  exists c, In c tbl /\ i = nat_of_ascii (short_name c).
Proof.
  induction tbl as [|c tbl IH]; simpl; [discriminate|].
  destruct (strcmp psz_name (long_name c) =? 0)%Z.
  - intros [= <-]. eauto.
  - destruct (strcmp psz_name (long_name c) <? 0)%Z; [discriminate|].
    intros H. destruct (IH H) as (c' & Hin & ->). eauto.
Qed.

(** X2. Once [cmd_initialize] has run, whatever word [execute_line]
    resolves, by its character or through [find_command], the slot it
    gets has a handler: the call through [func] never goes through a
    NULL pointer. *)
Theorem resolved_slot_has_handler (psz_word : string) (i : nat) :
  resolve_command (cmd_initialize short_command_init) psz_word = Some i ->
  exists f, func (slot (cmd_initialize short_command_init) i) = Some f.
Proof.
  unfold resolve_command.
  destruct (String.length psz_word =? 1)%nat.
  - destruct psz_word as [|c rest]; [discriminate|].
    destruct (func (slot _ (nat_of_ascii c))) as [f|] eqn:E; [|discriminate].
    intros [= <-]. eauto.
  - intros H. apply scan_commands_In in H as (c & Hin & ->).
    assert (Hall : forallb
              (fun c => match func (slot (cmd_initialize short_command_init)
                                         (nat_of_ascii (short_name c))) with
                        | Some _ => true
                        | None => false
                        end) commands = true) by (vm_compute; reflexivity).
    rewrite forallb_forall in Hall. specialize (Hall c Hin).
    destruct (func _) as [f|]; [eauto|discriminate].
Qed.

Lemma resolved_slot_has_handler_witness :
  resolve_command (cmd_initialize short_command_init) "backtrace" = Some 84%nat
  /\ exists f, func (slot (cmd_initialize short_command_init) 84) = Some f.
Proof.
  assert (H : resolve_command (cmd_initialize short_command_init) "backtrace"
              = Some 84%nat) by (vm_compute; reflexivity).
  split; [exact H|].
  exact (resolved_slot_has_handler "backtrace" 84 H).
Defined.

(** The calls of [DBG_CMD_INIT] on letters that are all different:
    each letter's slot ends with its handler and the ordinal of its
    call, the other slots stay as they were. *)
Lemma registrations_fold (regs : list (dbg_cmd * ascii)) :
  forall (tbl : list short_cmd_t) (n : N),
    NoDup (map (fun r => nat_of_ascii (snd r)) regs) ->
    List.length tbl = 256%nat ->
    let res := fold_left (fun st r => DBG_CMD_INIT (fst r) (snd r) st)
                         regs (tbl, n) in
    List.length (fst res) = 256%nat
    /\ (forall k f c, regs !! k = Some (f, c) ->
          fst res !! nat_of_ascii c
          = Some {| func := Some f; id := (n + N.of_nat k)%N |})
    /\ (forall i, ~ In i (map (fun r => nat_of_ascii (snd r)) regs) ->
          fst res !! i = tbl !! i).
Proof.
  induction regs as [|[f0 c0] regs IH]; intros tbl n Hnd Hlen; cbn [fold_left].
  - cbn. split; [exact Hlen|]. split; [intros k f c H; discriminate|reflexivity].
  - cbn [map snd] in Hnd. apply NoDup_cons in Hnd as [Hnotin Hnd].
    cbn [DBG_CMD_INIT fst snd].
    set (tbl1 := <[nat_of_ascii c0 := {| func := Some f0; id := n |}]> tbl).
    assert (Hlen1 : List.length tbl1 = 256%nat)
      by (unfold tbl1; now rewrite length_insert).
    destruct (IH tbl1 (n + 1)%N Hnd Hlen1) as (L & Hin & Hout).
    split; [exact L|]. split.
    + intros [|k] f c Hk.
      * cbn in Hk. injection Hk as <- <-.
        rewrite Hout by (rewrite <- list_elem_of_In; exact Hnotin).
        unfold tbl1. rewrite list_lookup_insert_eq.
        { now rewrite N.add_0_r. }
        rewrite Hlen. apply nat_ascii_bounded.
      * cbn in Hk. rewrite (Hin k f c Hk).
        replace (n + N.of_nat (S k))%N with (n + 1 + N.of_nat k)%N by lia.
        reflexivity.
    + intros i Hi. cbn [map snd] in Hi.
      rewrite Hout by (intros H; apply Hi; now right).
      unfold tbl1. apply list_lookup_insert_ne.
      intros <-. apply Hi. now left.
Qed.

(** X3. [cmd_initialize] fills one slot per call of [DBG_CMD_INIT]:
    the letters are all different, so on any table of 256 slots the
    slot of the k-th letter gets the k-th handler with the ordinal k,
    every other slot is left as it was, and the table keeps its 256
    slots. *)
Theorem cmd_initialize_fills_one_slot_per_command (tbl : list short_cmd_t) :
  List.length tbl = 256%nat ->
  List.length (cmd_initialize tbl) = 256%nat
  /\ (forall k f c, registrations !! k = Some (f, c) ->
        slot (cmd_initialize tbl) (nat_of_ascii c)
        = {| func := Some f; id := N.of_nat k |})
  /\ (forall i, ~ In i (map (fun r => nat_of_ascii (snd r)) registrations) ->
        cmd_initialize tbl !! i = tbl !! i).
Proof.
  intros Hlen.
  assert (Hnd : NoDup (map (fun r => nat_of_ascii (snd r)) registrations)).
  { apply (bool_decide_unpack _). vm_compute. exact I. }
  destruct (registrations_fold registrations tbl 0%N Hnd Hlen) as (L & Hin & Hout).
  unfold cmd_initialize. split; [exact L|]. split; [|exact Hout].
  intros k f c Hk. unfold slot. now rewrite (Hin k f c Hk).
Qed.

Lemma cmd_initialize_fills_one_slot_per_command_witness :
  List.length short_command_init = 256%nat
  /\ List.length (cmd_initialize short_command_init) = 256%nat
  /\ (forall k f c, registrations !! k = Some (f, c) ->
        slot (cmd_initialize short_command_init) (nat_of_ascii c)
        = {| func := Some f; id := N.of_nat k |})
  /\ (forall i, ~ In i (map (fun r => nat_of_ascii (snd r)) registrations) ->
        cmd_initialize short_command_init !! i = short_command_init !! i).
Proof.
  split; [reflexivity|].
  apply (cmd_initialize_fills_one_slot_per_command short_command_init).
  reflexivity.
Defined.

Lemma lookup_combine {A B} (l1 : list A) (l2 : list B) (k : nat) (a : A) (b : B) :
  l1 !! k = Some a -> l2 !! k = Some b -> In (a, b) (combine l1 l2).
Proof.
  revert l2 k. induction l1 as [|x l1 IH]; intros [|y l2] [|k]; cbn;
    try discriminate.
  - intros [= ->] [= ->]. now left.
  - intros H1 H2. right. exact (IH l2 k H1 H2).
Qed.

Section Dispatch.

Variable variable_expand : gmap string variable_t -> string -> string.
Variable get_int : string -> option Z.
Variable handler :
  dbg_cmd -> option string -> world -> option (world * debug_return_t).

(** A word followed by a blank and a text: [execute_line] resolves the
    word and hands the handler the text without its leading
    whitespace. *)
Lemma execute_line_word (ch : ascii) (nm rest : string) (w : world) :
  is_word (String ch nm) = true ->
  execute_line variable_expand get_int handler
    (String ch nm ++ String " " rest) w
  = match resolve_command (short_command (init w)) (String ch nm) with
    | None =>
        Some (emit (Printed ("No such debugger command: "
                             ++ String ch nm ++ ".")) w, debug_readloop)
    | Some i =>
        f ← func (slot (short_command (init w)) i);
        call variable_expand get_int handler f (Some (skip_whitespace rest)) w
    end.
Proof using Type.
  intros Hw. unfold execute_line.
  now rewrite (CommandClaims.get_word_app ch nm rest Hw).
Qed.

(** X4. The three tables agree: for the k-th command, [execute_line]
    sends its long name and its one-letter code, each followed by an
    argument text, to the handler the k-th call of [DBG_CMD_INIT]
    registered, with the argument text stripped of its leading
    whitespace. *)
Theorem commands_reach_their_handler
    (k : nat) (c : long_cmd_t) (f : dbg_cmd) (l : ascii) (rest : string)
    (w : world) :
  commands !! k = Some c ->
  registrations !! k = Some (f, l) ->
  short_command (init w) = cmd_initialize short_command_init ->
  l = short_name c
  /\ execute_line variable_expand get_int handler
       (long_name c ++ String " " rest) w
     = call variable_expand get_int handler f (Some (skip_whitespace rest)) w
  /\ execute_line variable_expand get_int handler
       (String l (String " " rest)) w
     = call variable_expand get_int handler f (Some (skip_whitespace rest)) w.
Proof using Type.
  intros Hc Hr Htbl.
  assert (Hall : forallb
     (fun cr : long_cmd_t * (dbg_cmd * ascii) =>
        (Ascii.eqb (snd (snd cr)) (short_name (fst cr))
         && negb (whitespace (snd (snd cr)))
         && is_word (long_name (fst cr))
         && match resolve_command (cmd_initialize short_command_init)
                  (long_name (fst cr)) with
            | Some i => (i =? nat_of_ascii (snd (snd cr)))%nat
            | None => false
            end)%bool)
     (combine commands registrations) = true) by (vm_compute; reflexivity).
  rewrite forallb_forall in Hall.
  specialize (Hall _ (lookup_combine _ _ _ _ _ Hc Hr)). cbn [fst snd] in Hall.
  apply andb_prop in Hall as [Hall Hres]. apply andb_prop in Hall as [Hall Hword].
  apply andb_prop in Hall as [Hl Hws].
  apply Ascii.eqb_eq in Hl. apply Bool.negb_true_iff in Hws.
  assert (Hnd : NoDup (map (fun r => nat_of_ascii (snd r)) registrations)).
  { apply (bool_decide_unpack _). vm_compute. exact I. }
  destruct (registrations_fold registrations short_command_init 0%N Hnd
              eq_refl) as (_ & Hin & _).
  specialize (Hin k f l Hr). fold (cmd_initialize short_command_init) in Hin.
  assert (Hslot : func (slot (cmd_initialize short_command_init)
                             (nat_of_ascii l)) = Some f).
  { unfold slot. now rewrite Hin. }
  split; [exact Hl|]. split.
  - destruct (long_name c) as [|ch nm] eqn:En; [discriminate|].
    rewrite (execute_line_word ch nm rest w Hword), Htbl.
    destruct (resolve_command _ (String ch nm)) as [i|]; [|discriminate].
    apply Nat.eqb_eq in Hres. subst i. rewrite Hslot. reflexivity.
  - change (String l (String " " rest)) with (String l "" ++ String " " rest).
    rewrite (execute_line_word l "" rest w)
      by (cbn; now rewrite Hws).
    rewrite Htbl. unfold resolve_command. cbn [String.length Nat.eqb].
    rewrite !Hslot. reflexivity.
Qed.

End Dispatch.

Lemma commands_reach_their_handler_witness :
  let w := Examples.world_of (Examples.idle 0 0 0) 0 in
  let w1 := set_init (init (initialize_once w)) w in
  "T"%char = short_name {| long_name := "where"; short_name := "T" |}
  /\ execute_line Examples.expand_id Examples.no_int Examples.continue_handler
       "where 3" w1
     = Some (w1, debug_readloop)
  /\ execute_line Examples.expand_id Examples.no_int Examples.continue_handler
       "T 3" w1
     = Some (w1, debug_readloop).
Proof.
  intros w w1.
  exact (commands_reach_their_handler Examples.expand_id Examples.no_int
           Examples.continue_handler 29
           {| long_name := "where"; short_name := "T" |} dbg_cmd_where "T" "3"
           w1 eq_refl eq_refl eq_refl).
Defined.

Lemma find_none_of_ne {A} (key : A -> string) (name : string) (l : list A) :
  (forall x, In x l -> key x <> name) ->
  List.find (fun x => String.eqb name (key x)) l = None.
Proof.
  induction l as [|x l IH]; simpl; [reflexivity|].
  intros H. replace (String.eqb name (key x)) with false.
  - apply IH. intros y Hy. apply H. now right.
  - symmetry. apply String.eqb_neq. intros E. apply (H x); [now left|]. now symmetry.
Qed.

(** X5. A line whose first word has two characters or more and is no
    alias and no command name, alone on the line or followed by
    anything, is answered with the unknown-command message and
    [debug_readloop], whatever the slot table holds; nothing else
    changes and no handler runs. *)
Theorem unknown_word_is_reported
    (variable_expand : gmap string variable_t -> string -> string)
    (get_int : string -> option Z)
    (handler : dbg_cmd -> option string -> world
               -> option (world * debug_return_t))
    (psz_line : string) (ch ch2 : ascii) (nm rest : string) (w : world) :
  let word := String ch (String ch2 nm) in
  get_word psz_line = (word, rest) ->
  no_nul word = true ->
  (forall a, In a aliases -> alias a <> word) ->
  (forall c, In c commands -> long_name c <> word) ->
  execute_line variable_expand get_int handler psz_line w
  = Some (emit (Printed ("No such debugger command: " ++ word ++ ".")) w,
          debug_readloop).
Proof.
  intros word Hline Hn Ha Hc. unfold word in *.
  unfold execute_line. rewrite Hline.
  unfold resolve_command.
  replace (String.length (String ch (String ch2 nm)) =? 1)%nat with false
    by reflexivity.
  rewrite (find_command_is_exact _ Hn).
  unfold find_command_exact, alias_exact, command_exact.
  rewrite (find_none_of_ne alias _ aliases Ha).
  now rewrite (find_none_of_ne long_name _ commands Hc).
Qed.

Lemma unknown_word_is_reported_witness :
  let w := Examples.world_of (Examples.idle 0 0 0) 0 in
  execute_line Examples.expand_id Examples.no_int Examples.idle_handler
    "frob" w
  = Some (emit (Printed "No such debugger command: frob.") w, debug_readloop)
  /\ execute_line Examples.expand_id Examples.no_int Examples.idle_handler
       "frob 1 2" w
     = Some (emit (Printed "No such debugger command: frob.") w, debug_readloop).
Proof.
  intros w.
  assert (Ha : forall a, In a aliases -> alias a <> "frob").
  { intros a Ha. repeat (destruct Ha as [<-|Ha]; [discriminate|]). destruct Ha. }
  assert (Hc : forall c, In c commands -> long_name c <> "frob").
  { intros c Hc. repeat (destruct Hc as [<-|Hc]; [discriminate|]). destruct Hc. }
  split.
  - exact (unknown_word_is_reported Examples.expand_id Examples.no_int
             Examples.idle_handler "frob" "f" "r" "ob" EmptyString w
             eq_refl eq_refl Ha Hc).
  - exact (unknown_word_is_reported Examples.expand_id Examples.no_int
             Examples.idle_handler "frob 1 2" "f" "r" "ob" "1 2" w
             eq_refl eq_refl Ha Hc).
Defined.

End RegistryExtras.

(** ** [enter_debugger] and its loop *)

Module DebuggerExtras.
Import CString Fns Types Variables Commands Debugger Scenario Examples.
Import GateFacts CommandFacts.

(** The gate writes the stepping state only. *)
Lemma gate_frame p_target errcode reason w w1 :
  debugger_gate p_target errcode reason w = gate_engage w1
  \/ debugger_gate p_target errcode reason w = gate_resume w1 ->
  flags w1 = flags w /\ report w1 = report w /\ init w1 = init w
  /\ files w1 = files w /\ vars w1 = vars w /\ output w1 = output w.
Proof.
  unfold debugger_gate.
  destruct (_ =? DEBUGGER_QUIT_RC)%Z.
  { intros [H|H]; [discriminate|injection H as <-]; cbn; repeat split. }
  destruct (_ || _)%bool.
  { destruct (deref _ p_target) as [f|]; [|intros [H|H]; discriminate].
    destruct (tracing f =? 0)%Z; intros [H|H]; try discriminate;
      injection H as <-; cbn; repeat split. }
  destruct (_ && _)%bool.
  2:{ intros [H|H]; [injection H as <-|discriminate]; cbn; repeat split. }
  destruct p_target as [a|].
  2:{ intros [H|H]; [injection H as <-|discriminate]; cbn; repeat split. }
  destruct (deref _ (Some a)) as [f|]; [|intros [H|H]; discriminate].
  destruct (_ && _)%bool; intros [H|H]; try discriminate;
    injection H as <-; cbn; repeat split.
Qed.

(** The steps of an engaging prologue, one after the other. *)
Lemma prologue_engage_parts p p_target errcode reason w w' :
  enter_debugger_prologue p p_target errcode reason w = gate_engage w' ->
  exists w1 w2 w3,
    debugger_gate p_target errcode reason w = gate_engage w1
    /\ clear_temporary_breakpoints p_target w1 = Some w2
    /\ report_frame p p_target (initialize_once w2) = Some w3
    /\ w' = emit (Location p_target reason) (announce errcode w3).
Proof.
  unfold enter_debugger_prologue.
  destruct (debugger_gate p_target errcode reason w) as [|w1|w1];
    try discriminate.
  destruct (clear_temporary_breakpoints p_target w1) as [w2|] eqn:Hc;
    [|discriminate].
  destruct (report_frame p p_target (initialize_once w2)) as [w3|] eqn:Hr;
    [|discriminate].
  intros [= <-]. exists w1, w2, w3. repeat split; assumption.
Qed.

Section Loop.

Variable variable_expand : gmap string variable_t -> string -> string.
Variable get_int : string -> option Z.
Variable handler :
  Registry.dbg_cmd -> option string -> world -> option (world * debug_return_t).

Lemma read_loop_returns_final open_depth close_depth lines w w' r :
  read_loop variable_expand get_int handler open_depth close_depth lines w
    = Returned w' r ->
  r <> debug_readloop /\ r <> debug_cmd_error.
Proof using Type.
  revert w. induction lines as [|line lines IH]; intros w; cbn [read_loop].
  - destruct (handler Registry.dbg_cmd_quit None _) as [[w1 r1]|]; discriminate.
  - destruct (match stripwhite line with
              | EmptyString => _ | String _ _ => _ end) as [[w1 r1]|];
      [|discriminate].
    destruct r1; try (intros [= _ <-]; split; discriminate); apply IH.
Qed.

(** X6. [enter_debugger] never hands [debug_readloop] or
    [debug_cmd_error] back to the build: its loop goes on while a
    command returns one of them, and a call that does not stop returns
    [continue_execution]. *)
Theorem enter_debugger_returns_final
    (p : option target_stack_node_t) (p_target : option N) (errcode : Z)
    (reason : debug_enter_reason_t) (lines : list string) (w w' : world)
    (r : debug_return_t) :
  enter_debugger variable_expand get_int handler
    p p_target errcode reason lines w = Returned w' r ->
  r <> debug_readloop /\ r <> debug_cmd_error.
Proof using Type.
  unfold enter_debugger.
  destruct (enter_debugger_prologue p p_target errcode reason w) as [|w1|w1];
    [discriminate| |].
  - intros [= _ <-]. split; discriminate.
  - destruct (read_loop _ _ _ _ _ lines w1) as [|w2|w2 r2] eqn:L;
      try discriminate.
    intros [= _ <-]. exact (read_loop_returns_final _ _ _ _ _ _ L).
Qed.

(** X7. Outside the debugger [in_debugger] is never left at true: a
    call entered with [in_debugger] false or in the quit state returns
    with it false or in the quit state, whatever the handlers did
    with it. *)
Theorem in_debugger_is_false_or_quit_after_return
    (p : option target_stack_node_t) (p_target : option N) (errcode : Z)
    (reason : debug_enter_reason_t) (lines : list string) (w w' : world)
    (r : debug_return_t) :
  in_debugger (stepping w) = 0%Z \/ in_debugger (stepping w) = DEBUGGER_QUIT_RC ->
  enter_debugger variable_expand get_int handler
    p p_target errcode reason lines w = Returned w' r ->
  in_debugger (stepping w') = 0%Z
  \/ in_debugger (stepping w') = DEBUGGER_QUIT_RC.
Proof using Type.
  intros Hin. unfold enter_debugger.
  destruct (enter_debugger_prologue p p_target errcode reason w)
    as [|w1|w1] eqn:E; [discriminate| |].
  - intros [= <- _].
    apply prologue_resume_iff, gate_resume_inv in E. subst w1.
    unfold resumed. cbn [with_last_stop_reason in_debugger].
    destruct (_ =? DEBUGGER_QUIT_RC)%Z; [exact Hin|].
    destruct (_ || _)%bool; exact Hin.
  - destruct (read_loop _ _ _ _ _ lines w1) as [|w2|w2 r2]; try discriminate.
    intros [= <- _]. unfold leave_debugger.
    destruct (Z.eqb_spec (in_debugger (stepping w2)) DEBUGGER_QUIT_RC) as [Hq|Hq];
      [now right|now left].
Qed.

End Loop.

Lemma enter_debugger_returns_final_witness :
  exists w' r,
    enter_debugger expand_id no_int continue_handler
      None None (-2) DEBUG_EXPLICIT_CALL ["info"; "continue"]
      (world_of (idle 0 0 1) 0) = Returned w' r
    /\ r <> debug_readloop /\ r <> debug_cmd_error.
Proof.
  assert (E : exists w',
             enter_debugger expand_id no_int continue_handler
               None None (-2) DEBUG_EXPLICIT_CALL ["info"; "continue"]
               (world_of (idle 0 0 1) 0) = Returned w' continue_execution)
    by (eexists; vm_compute; reflexivity).
  destruct E as [w' E]. exists w', continue_execution. split; [exact E|].
  exact (enter_debugger_returns_final expand_id no_int continue_handler
           _ _ _ _ _ _ _ _ E).
Defined.

Lemma in_debugger_is_false_or_quit_after_return_witness :
  exists w' r,
    enter_debugger expand_id no_int continue_handler
      None (Some 1%N) 0 DEBUG_BRKPT_AFTER_CMD ["continue"]
      (world_of (idle 1 0 0) 0) = Returned w' r
    /\ (in_debugger (stepping w') = 0%Z
        \/ in_debugger (stepping w') = DEBUGGER_QUIT_RC).
Proof.
  assert (E : exists w',
             enter_debugger expand_id no_int continue_handler
               None (Some 1%N) 0 DEBUG_BRKPT_AFTER_CMD ["continue"]
               (world_of (idle 1 0 0) 0) = Returned w' continue_execution)
    by (eexists; vm_compute; reflexivity).
  destruct E as [w' E]. exists w', continue_execution. split; [exact E|].
  exact (in_debugger_is_false_or_quit_after_return expand_id no_int
           continue_handler None (Some 1%N) 0 DEBUG_BRKPT_AFTER_CMD
           ["continue"] (world_of (idle 1 0 0) 0) w' continue_execution
           (or_introl eq_refl) E).
Defined.

Lemma string_length_app (a b : string) :
  String.length (a ++ b) = (String.length a + String.length b)%nat.
Proof. induction a as [|c a IH]; simpl; [reflexivity|now rewrite IH]. Qed.

Lemma string_app_empty (a : string) : a ++ EmptyString = a.
Proof.
  induction a as [|c a IH]; [reflexivity|].
  change (String c (a ++ EmptyString) = String c a). now rewrite IH.
Qed.

Lemma string_length_repeat (g : ascii) (n : nat) :
  String.length (string_of_list_ascii (repeat g n)) = n.
Proof. induction n as [|n IH]; simpl; [reflexivity|now rewrite IH]. Qed.

(** X9. The depth marks fit their buffers: [open_depth] and
    [close_depth] hold one glyph per nesting level up to level 3,
    five glyphs and three dots from level 4 on, so with the
    terminating NUL never more than 9 of the [MAX_NEST_DEPTH]
    characters. *)
Theorem depth_glyphs_fit (makelevel : N) (glyph : ascii) :
  (String.length (depth_glyphs makelevel glyph) + 1 < MAX_NEST_DEPTH)%nat
  /\ depth_glyphs makelevel glyph
     = if (makelevel <? 4)%N
       then string_of_list_ascii (repeat glyph (S (N.to_nat makelevel)))
       else string_of_list_ascii (repeat glyph 5) ++ "...".
Proof.
  unfold depth_glyphs, MAX_NEST_DEPTH.
  change (10 - 5)%nat with 5%nat.
  destruct (N.ltb_spec makelevel 4) as [Hlt|Hge].
  - replace (Nat.min (S (N.to_nat makelevel)) 5) with (S (N.to_nat makelevel))
      by lia.
    replace (S (N.to_nat makelevel) =? 5)%nat with false
      by (symmetry; apply Nat.eqb_neq; lia).
    split.
    + rewrite string_length_app, string_length_repeat. cbn. lia.
    + apply string_app_empty.
  - replace (Nat.min (S (N.to_nat makelevel)) 5) with 5%nat by lia.
    split; [|reflexivity].
    rewrite string_length_app, string_length_repeat. cbn. lia.
Qed.

(** X10. The slot table is built once: a call that engages leaves
    [b_init] set, has run [cmd_initialize] and cleared the size of
    [file2lines] if and only if [b_init] was not set, and has set up
    the line editor only if it is in use and was not set up yet. *)
Theorem slot_table_is_built_once
    (p : option target_stack_node_t) (p_target : option N) (errcode : Z)
    (reason : debug_enter_reason_t) (w w' : world) :
  enter_debugger_prologue p p_target errcode reason w = gate_engage w' ->
  b_init (init w') = true
  /\ short_command (init w')
     = (if b_init (init w) then short_command (init w)
        else Registry.cmd_initialize (short_command (init w)))
  /\ file2lines_ht_size (init w')
     = (if b_init (init w) then file2lines_ht_size (init w) else 0%N)
  /\ b_readline_init (init w')
     = (b_readline_init (init w) || use_readline_flag (init w))%bool
  /\ use_readline_flag (init w') = use_readline_flag (init w).
Proof.
  intros E.
  destruct (prologue_engage_parts _ _ _ _ _ _ E) as (w1 & w2 & w3 & G & C & R & ->).
  destruct (gate_frame _ _ _ _ _ (or_introl G)) as (_ & _ & Hi1 & _).
  destruct (clear_temporary_state _ _ _ C) as (_ & _ & _ & Hi2 & _).
  destruct (report_frame_state _ _ _ _ R) as (_ & _ & _ & Hi3 & _).
  destruct (announce_state errcode w3) as (_ & _ & _ & Hi4 & _).
  cbn [init emit]. rewrite Hi4, Hi3. unfold initialize_once.
  cbn [init set_init b_init b_readline_init use_readline_flag].
  rewrite Hi2, Hi1.
  destruct (init w) as [bi bri url sc fs]. cbn.
  destruct bi, bri, url; cbn; repeat split; reflexivity.
Qed.

Lemma slot_table_is_built_once_witness :
  exists w',
    enter_debugger_prologue None (Some 1%N) 0 DEBUG_BRKPT_AFTER_CMD
      (world_of (idle 1 0 0) 0) = gate_engage w'
    /\ b_init (init w') = true
    /\ short_command (init w')
       = Registry.cmd_initialize Registry.short_command_init.
Proof.
  assert (E : exists w',
             enter_debugger_prologue None (Some 1%N) 0 DEBUG_BRKPT_AFTER_CMD
               (world_of (idle 1 0 0) 0) = gate_engage w')
    by (eexists; vm_compute; reflexivity).
  destruct E as [w' E]. exists w'. split; [exact E|].
  destruct (slot_table_is_built_once _ _ _ _ _ _ E) as (H1 & H2 & _).
  split; [exact H1|exact H2].
Defined.

Lemma cleared_files_name p_target reason (m : gmap N file_t) (a : N) :
  name <$> cleared_files p_target reason m !! a = name <$> m !! a.
Proof.
  unfold cleared_files. destruct p_target as [b|]; [|reflexivity].
  destruct (m !! b) as [f|] eqn:E; [|reflexivity].
  destruct (_ && _)%bool; [|reflexivity].
  destruct (decide (b = a)) as [->|Hne].
  - rewrite lookup_insert_eq, E. reflexivity.
  - now rewrite lookup_insert_ne.
Qed.

(** X11. An engaging call resets the reported frame to the top of the
    stack: position 0, both stack pointers at the node passed in, and
    as target the one of that node if it has one, else the target
    passed in, else none, with an empty name. *)
Theorem reported_frame_prefers_stack_top
    (p : option target_stack_node_t) (p_target : option N) (errcode : Z)
    (reason : debug_enter_reason_t) (w w' : world) :
  enter_debugger_prologue p p_target errcode reason w = gate_engage w' ->
  let pick :=
    match p with
    | Some node =>
        match Types.p_target node with
        | Some a => Some a
        | None => p_target
        end
    | None => p_target
    end in
  i_stack_pos (report w') = 0%N
  /\ p_stack (report w') = p /\ p_stack_top (report w') = p
  /\ p_floc_stack (report w') = p_stack_floc_top (report w)
  /\ p_target_loc (report w') = pick
  /\ Some (psz_target_name (report w'))
     = match pick with
       | Some a => name <$> files w !! a
       | None => Some EmptyString
       end.
Proof.
  intros E pick.
  destruct (prologue_engage_parts _ _ _ _ _ _ E) as (w1 & w2 & w3 & G & C & R & ->).
  destruct (gate_frame _ _ _ _ _ (or_introl G)) as (_ & Hr1 & _ & Hf1 & _).
  destruct (clear_temporary_state _ _ _ C) as (Hf2 & _ & _ & _ & _ & Hr2 & _).
  destruct (announce_state errcode w3) as (_ & _ & _ & _ & Hr4 & _).
  cbn [report emit]. rewrite Hr4. clear Hr4.
  unfold report_frame in R. fold pick in R.
  cbn [initialize_once report set_init files] in R.
  rewrite Hr2, Hr1 in R.
  destruct pick as [a|].
  - pose proof (cleared_files_name p_target
                  (last_stop_reason (stepping w1)) (files w1) a) as Hn.
    rewrite <- Hf2, Hf1 in Hn.
    destruct (files w2 !! a) as [f|]; [|discriminate].
    injection R as <-. cbn. cbn in Hn. rewrite <- Hn. repeat split.
  - injection R as <-. cbn. repeat split.
Qed.

Lemma reported_frame_prefers_stack_top_witness :
  exists w',
    enter_debugger_prologue (Some {| Types.p_target := Some 1%N |}) None 0
      DEBUG_BRKPT_AFTER_CMD (world_of (idle 1 0 0) 0) = gate_engage w'
    /\ p_target_loc (report w') = Some 1%N
    /\ Some (psz_target_name (report w')) = Some "all".
Proof.
  assert (E : exists w',
             enter_debugger_prologue (Some {| Types.p_target := Some 1%N |})
               None 0 DEBUG_BRKPT_AFTER_CMD (world_of (idle 1 0 0) 0)
             = gate_engage w') by (eexists; vm_compute; reflexivity).
  destruct E as [w' E]. exists w'. split; [exact E|].
  destruct (reported_frame_prefers_stack_top _ _ _ _ _ _ E)
    as (_ & _ & _ & _ & H1 & H2).
  split; [exact H1|exact H2].
Defined.

(** X12. With a step or next count above one the gate reads the
    tracing field of the target without testing the pointer: outside
    the quit state, a call without target (NULL) dereferences NULL,
    whatever the other arguments. *)
Theorem counted_skip_without_target_faults
    (variable_expand : gmap string variable_t -> string -> string)
    (get_int : string -> option Z)
    (handler : Registry.dbg_cmd -> option string -> world
               -> option (world * debug_return_t))
    (p : option target_stack_node_t) (errcode : Z)
    (reason : debug_enter_reason_t) (lines : list string) (w : world) :
  in_debugger (stepping w) <> DEBUGGER_QUIT_RC ->
  (1 < i_debugger_stepping (stepping w)
   \/ 1 < i_debugger_nexting (stepping w))%N ->
  enter_debugger variable_expand get_int handler
    p None errcode reason lines w = Fault.
Proof.
  intros Hq Hc. unfold enter_debugger, enter_debugger_prologue, debugger_gate.
  cbn [stepping set_stepping with_last_stop_reason in_debugger
       i_debugger_stepping i_debugger_nexting debugger_on_error].
  destruct (Z.eqb_spec (in_debugger (stepping w)) DEBUGGER_QUIT_RC); [tauto|].
  replace ((1 <? i_debugger_stepping (stepping w))%N
           || (1 <? i_debugger_nexting (stepping w))%N)%bool with true.
  - reflexivity.
  - symmetry. apply orb_true_intro. destruct Hc; [left|right];
      now apply N.ltb_lt.
Qed.

Lemma counted_skip_without_target_faults_witness :
  enter_debugger expand_id no_int continue_handler
    None None (-2) DEBUG_EXPLICIT_CALL ["continue"] (world_of (idle 2 0 0) 0)
  = Fault.
Proof.
  apply (counted_skip_without_target_faults expand_id no_int continue_handler
           None (-2) DEBUG_EXPLICIT_CALL ["continue"] (world_of (idle 2 0 0) 0)).
  - discriminate.
  - left. reflexivity.
Defined.

(** X13. A breakpoint met during a counted step or next stops the
    build (outside the quit state) and still costs one count: the
    call engages with every counter that was not zero decremented. *)
Theorem breakpoint_stops_counted_step
    (p : option target_stack_node_t) (a : N) (f : file_t) (errcode : Z)
    (reason : debug_enter_reason_t) (w : world) :
  files w !! a = Some f -> tracing f <> 0%Z ->
  in_debugger (stepping w) <> DEBUGGER_QUIT_RC ->
  (1 < i_debugger_stepping (stepping w)
   \/ 1 < i_debugger_nexting (stepping w))%N ->
  valid_node w p ->
  exists w',
    enter_debugger_prologue p (Some a) errcode reason w = gate_engage w'
    /\ counters w'
       = (decrement (i_debugger_stepping (stepping w)),
          decrement (i_debugger_nexting (stepping w))).
Proof.
  intros Hf Ht Hq Hc Hp.
  assert (G : debugger_gate (Some a) errcode reason w
              = gate_engage
                  (set_stepping
                     (with_counts (decrement (i_debugger_stepping (stepping w)))
                                  (decrement (i_debugger_nexting (stepping w)))
                                  (with_last_stop_reason reason (stepping w)))
                     (set_stepping (with_last_stop_reason reason (stepping w)) w))).
  { unfold debugger_gate, deref.
    cbn [stepping set_stepping with_last_stop_reason in_debugger files mbind
         option_bind i_debugger_stepping i_debugger_nexting debugger_on_error].
    destruct (Z.eqb_spec (in_debugger (stepping w)) DEBUGGER_QUIT_RC); [tauto|].
    replace ((1 <? i_debugger_stepping (stepping w))%N
             || (1 <? i_debugger_nexting (stepping w))%N)%bool with true.
    2:{ symmetry. apply orb_true_intro. destruct Hc; [left|right];
        now apply N.ltb_lt. }
    rewrite Hf. destruct (Z.eqb_spec (tracing f) 0); [tauto|reflexivity]. }
  destruct (prologue_engages p (Some a) errcode reason w _ G Hp) as [w' E].
  { cbn. rewrite Hf. eauto. }
  exists w'. split; [exact E|].
  destruct (prologue_engage_inv _ _ _ _ _ _ E) as ((w1 & G1 & ->) & _).
  rewrite G in G1. injection G1 as <-. reflexivity.
Qed.

Lemma breakpoint_stops_counted_step_witness :
  exists w',
    enter_debugger_prologue None (Some 1%N) 0 DEBUG_BRKPT_BEFORE_PREREQ
      (world_of (idle 3 1 0) BRK_ALL) = gate_engage w'
    /\ counters w' = (2%N, 0%N).
Proof.
  apply (breakpoint_stops_counted_step None 1
           {| name := "all"; floc := makefile_3; tracing := BRK_ALL |}
           0 DEBUG_BRKPT_BEFORE_PREREQ (world_of (idle 3 1 0) BRK_ALL)).
  - reflexivity.
  - discriminate.
  - discriminate.
  - left. reflexivity.
  - exact I.
Defined.

(** Outside the quit state and without a counter above one, the gate
    is the third test of [enter_debugger]. *)
Lemma gate_without_skip p_target errcode reason w :
  in_debugger (stepping w) <> DEBUGGER_QUIT_RC ->
  (i_debugger_stepping (stepping w) <= 1)%N ->
  (i_debugger_nexting (stepping w) <= 1)%N ->
  valid_target w p_target ->
  let w1 := set_stepping (with_last_stop_reason reason (stepping w)) w in
  debugger_gate p_target errcode reason w
  = if ((debugger_on_error (stepping w) =? 0)%Z
        && (i_debugger_stepping (stepping w) =? 0)%N
        && (i_debugger_nexting (stepping w) =? 0)%N
        && match deref w p_target with
           | Some f => (tracing f =? 0)%Z
           | None => false
           end
        && negb (errcode =? -2)%Z)%bool
    then gate_resume w1 else gate_engage w1.
Proof.
  intros Hq Hs Hn Hv w1. unfold debugger_gate. fold w1.
  cbn [stepping w1 set_stepping with_last_stop_reason in_debugger
       i_debugger_stepping i_debugger_nexting debugger_on_error].
  destruct (Z.eqb_spec (in_debugger (stepping w)) DEBUGGER_QUIT_RC); [tauto|].
  replace (1 <? i_debugger_stepping (stepping w))%N with false
    by (symmetry; apply N.ltb_ge; exact Hs).
  replace (1 <? i_debugger_nexting (stepping w))%N with false
    by (symmetry; apply N.ltb_ge; exact Hn).
  cbn [orb].
  destruct (debugger_on_error (stepping w) =? 0)%Z; [|reflexivity].
  destruct (i_debugger_stepping (stepping w) =? 0)%N; [|reflexivity].
  destruct (i_debugger_nexting (stepping w) =? 0)%N; [|reflexivity].
  cbn [negb orb andb].
  destruct p_target as [a|]; [|reflexivity].
  destruct Hv as [f Hf]. unfold deref. cbn [mbind option_bind files w1 set_stepping].
  rewrite Hf. destruct (tracing f =? 0)%Z; reflexivity.
Qed.

(** X14. The end of the outermost make does not put the debugger in
    its quit state: with the termination code at make level 0 and no
    counter above one, the call engages (outside the quit state),
    prints "Makefile terminated." and the hint to quit or restart, and
    starts its loop with [in_debugger] true. *)
Theorem top_level_termination_engages_without_quit
    (p : option target_stack_node_t) (p_target : option N)
    (reason : debug_enter_reason_t) (w : world) :
  in_debugger (stepping w) <> DEBUGGER_QUIT_RC ->
  makelevel (stepping w) = 0%N ->
  (i_debugger_stepping (stepping w) <= 1)%N ->
  (i_debugger_nexting (stepping w) <= 1)%N ->
  valid_node w p -> valid_target w p_target ->
  exists w',
    enter_debugger_prologue p p_target (-2) reason w = gate_engage w'
    /\ in_debugger (stepping w') = 1%Z
    /\ output w'
       = Location p_target reason
         :: Printed "Use q to quit or R to restart"
         :: Printed "Makefile terminated." :: output w.
Proof.
  intros Hq Hlv Hs Hn Hp Ht.
  pose proof (gate_without_skip p_target (-2) reason w Hq Hs Hn Ht) as G.
  cbv zeta in G. cbn [Z.eqb negb] in G. rewrite Bool.andb_false_r in G.
  destruct (prologue_engages p p_target (-2) reason w _ G Hp Ht) as [w' E].
  exists w'. split; [exact E|].
  destruct (prologue_engage_inv _ _ _ _ _ _ E)
    as (_ & _ & _ & _ & _ & _ & Hm & Hin).
  split.
  { rewrite Hin, Hlv. reflexivity. }
  destruct (prologue_engage_parts _ _ _ _ _ _ E) as (w1 & w2 & w3 & G1 & C & R & ->).
  destruct (gate_frame _ _ _ _ _ (or_introl G1)) as (_ & _ & _ & _ & _ & Ho1).
  destruct (gate_engage_inv _ _ _ _ _ G1) as (_ & _ & _ & _ & _ & Hm1 & _).
  destruct (clear_temporary_state _ _ _ C) as (_ & _ & _ & _ & Hs2 & _ & Ho2).
  destruct (report_frame_state _ _ _ _ R) as (_ & _ & _ & _ & Hs3 & Ho3).
  unfold announce. cbn [Z.eqb stepping set_stepping with_in_debugger makelevel].
  rewrite Hs3. cbn [initialize_once stepping set_init].
  rewrite Hs2, Hm1, Hlv. cbn [N.eqb Pos.eqb emit output set_stepping].
  rewrite Ho3. cbn [initialize_once output set_init]. now rewrite Ho2, Ho1.
Qed.

Lemma top_level_termination_engages_without_quit_witness :
  exists w',
    enter_debugger_prologue None None (-2) DEBUG_EXPLICIT_CALL
      (world_of (idle 0 0 0) 0) = gate_engage w'
    /\ in_debugger (stepping w') = 1%Z
    /\ output w'
       = [Location None DEBUG_EXPLICIT_CALL;
          Printed "Use q to quit or R to restart";
          Printed "Makefile terminated."].
Proof.
  apply (top_level_termination_engages_without_quit None None
           DEBUG_EXPLICIT_CALL (world_of (idle 0 0 0) 0)).
  - discriminate.
  - reflexivity.
  - discriminate.
  - discriminate.
  - exact I.
  - exact I.
Defined.

(** X15. When no counter is above one (and outside the quit state) a
    call resumes silently in one case only: the debugger is not set to
    stop on errors, both counters are zero, the error code is not the
    termination code, and there is a target and it has no trace flag.
    In every other case the call stops; in particular a call without
    target always stops. *)
Theorem resumes_without_skip_iff
    (p_target : option N) (errcode : Z) (reason : debug_enter_reason_t)
    (w : world) :
  in_debugger (stepping w) <> DEBUGGER_QUIT_RC ->
  (i_debugger_stepping (stepping w) <= 1)%N ->
  (i_debugger_nexting (stepping w) <= 1)%N ->
  valid_target w p_target ->
  ((exists w', debugger_gate p_target errcode reason w = gate_resume w')
   <-> debugger_on_error (stepping w) = 0%Z
       /\ i_debugger_stepping (stepping w) = 0%N
       /\ i_debugger_nexting (stepping w) = 0%N
       /\ errcode <> (-2)%Z
       /\ exists a f, p_target = Some a /\ files w !! a = Some f
                      /\ tracing f = 0%Z)
  /\ ((exists w', debugger_gate p_target errcode reason w = gate_engage w')
      \/ (exists w', debugger_gate p_target errcode reason w = gate_resume w')).
Proof.
  intros Hq Hs Hn Hv.
  rewrite (gate_without_skip p_target errcode reason w Hq Hs Hn Hv).
  cbv zeta.
  destruct (Z.eqb_spec (debugger_on_error (stepping w)) 0) as [He|He];
    [|split; [split; [intros [w' H]; discriminate|tauto]|eauto]].
  destruct (N.eqb_spec (i_debugger_stepping (stepping w)) 0) as [Hs0|Hs0];
    [|split; [split; [intros [w' H]; discriminate|tauto]|eauto]].
  destruct (N.eqb_spec (i_debugger_nexting (stepping w)) 0) as [Hn0|Hn0];
    [|split; [split; [intros [w' H]; discriminate|tauto]|eauto]].
  cbn [andb].
  destruct p_target as [a|]; cbn [deref mbind option_bind].
  2:{ split; [split; [intros [w' H]; discriminate|]|eauto].
      intros (_ & _ & _ & _ & a & f & H & _). discriminate. }
  destruct (files w !! a) as [f|] eqn:Hf.
  2:{ split; [split; [intros [w' H]; discriminate|]|eauto].
      intros (_ & _ & _ & _ & a' & f & [= <-] & H & _). congruence. }
  destruct (Z.eqb_spec (tracing f) 0) as [Ht|Ht]; cbn [andb].
  2:{ split; [split; [intros [w' H]; discriminate|]|eauto].
      intros (_ & _ & _ & _ & a' & f' & [= <-] & H & Ht'). congruence. }
  destruct (Z.eqb_spec errcode (-2)) as [Hc|Hc]; cbn [negb].
  { split; [split; [intros [w' H]; discriminate|tauto]|eauto]. }
  split; [|eauto]. split; [|eauto].
  intros _. repeat split; try assumption. eauto.
Qed.

Lemma resumes_without_skip_iff_witness :
  let w := world_of (idle 0 0 0) 0 in
  ((exists w', debugger_gate (Some 1%N) 0 DEBUG_BRKPT_AFTER_CMD w = gate_resume w')
   <-> debugger_on_error (stepping w) = 0%Z
       /\ i_debugger_stepping (stepping w) = 0%N
       /\ i_debugger_nexting (stepping w) = 0%N
       /\ 0%Z <> (-2)%Z
       /\ exists a f, Some 1%N = Some a /\ files w !! a = Some f
                      /\ tracing f = 0%Z)
  /\ ((exists w', debugger_gate (Some 1%N) 0 DEBUG_BRKPT_AFTER_CMD w = gate_engage w')
      \/ (exists w', debugger_gate (Some 1%N) 0 DEBUG_BRKPT_AFTER_CMD w
                     = gate_resume w')).
Proof.
  intros w.
  apply (resumes_without_skip_iff (Some 1%N) 0 DEBUG_BRKPT_AFTER_CMD w).
  - discriminate.
  - discriminate.
  - discriminate.
  - cbn. eauto.
Defined.

End DebuggerExtras.

(** ** The [set] command, the assignment of variables and the history *)

Module CommandExtras.
Import CString Fns Types Variables Commands Examples CommandFacts History.
Import Lookup.

Lemma prefix_head (c : ascii) (t word : string) :
  String.prefix (String c t) word = true ->
  exists rest, word = String c rest.
Proof.
  destruct word as [|d rest]; cbn; [discriminate|].
  destruct (ascii_dec c d) as [->|]; [eauto|discriminate].
Qed.

Lemma accepted_inv (tok : string) (b : set_branch) :
  is_abbrev_of tok (branch_word b) (branch_min b) = true ->
  exists c t rest, tok = String c t /\ branch_word b = String c rest.
Proof.
  unfold is_abbrev_of. intros H. apply andb_prop in H as [Hlen Hpre].
  destruct tok as [|c t].
  - apply Nat.leb_le in Hlen. destruct b; cbn in Hlen; lia.
  - destruct (prefix_head c t _ Hpre) as [rest ->]. eauto.
Qed.

(** The words of the chain start with seven different letters. *)
Lemma branch_word_head_inj (b b' : set_branch) (c : ascii) (r r' : string) :
  branch_word b = String c r -> branch_word b' = String c r' -> b = b'.
Proof. destruct b, b'; cbn; intros [= <- _] [=]; reflexivity. Qed.

(** X16. No word is an abbreviation of two options: the option the
    if-chain of [dbg_cmd_set] selects is the only one whose test
    accepts the word, so the order of the tests does not matter. *)
Theorem abbreviation_selects_one_option (tok : string) (b : set_branch) :
  select_branch tok = Some b
  <-> is_abbrev_of tok (branch_word b) (branch_min b) = true.
Proof.
  unfold select_branch. split.
  - intros H. now apply List.find_some in H as [_ H].
  - intros Hb.
    destruct (List.find _ set_branches) as [b0|] eqn:E.
    + apply List.find_some in E as [_ Hb0].
      destruct (accepted_inv tok b Hb) as (c & t & r & -> & Hw).
      destruct (accepted_inv _ b0 Hb0) as (c' & t' & r' & [= <- <-] & Hw0).
      f_equal. exact (branch_word_head_inj b0 b c r' r Hw0 Hw).
    + exfalso.
      assert (Hin : In b set_branches) by (destruct b; cbn; tauto).
      pose proof (List.find_none _ _ E b Hin) as Hn. cbv beta in Hn.
      congruence.
Qed.

Lemma get_flag_put_flag_other (r r' : flag_ref) (v : Z) (f : flags_t) :
  r' <> r -> get_flag r' (put_flag r v f) = get_flag r' f.
Proof. intros Hne. destruct r, r'; cbn; try reflexivity; congruence. Qed.

Lemma on_off_toggle_other (arg : string) (r r' : flag_ref) (f : flags_t) :
  r' <> r -> get_flag r' (on_off_toggle arg r f) = get_flag r' f.
Proof.
  intros Hne. unfold on_off_toggle.
  destruct (String.eqb arg "on"); [now apply get_flag_put_flag_other|].
  destruct (String.eqb arg "off"); [now apply get_flag_put_flag_other|].
  destruct (String.eqb arg "toggle"); [now apply get_flag_put_flag_other|].
  reflexivity.
Qed.

Section Handlers.

Variable variable_expand : gmap string variable_t -> string -> string.
Variable get_int : string -> option Z.

(** X17. The options basename, ignore-errors, keep-going and silent,
    under any accepted abbreviation, write the flag [set_subcommands]
    binds them to and no other: the flag is set from the argument, or
    toggled when the option stands alone. The option trace does so
    when it has no argument. The variables are not touched. *)
Theorem on_off_option_writes_its_own_flag
    (psz_args : string) (ch : ascii) (tok arg : string) (b : set_branch)
    (r : flag_ref) (w : world) :
  get_word psz_args = (String ch tok, arg) ->
  select_branch (String ch tok) = Some b ->
  In b [br_basename; br_ignore_errors; br_keep_going; br_silent]
  \/ (b = br_trace /\ bump_leading arg = EmptyString) ->
  var <$> List.find (fun s => String.eqb (sub_name s) (branch_word b))
            set_subcommands = Some (Some r) ->
  exists w',
    dbg_cmd_set variable_expand get_int (Some psz_args) w
      = Some (w', debug_readloop)
    /\ flags w'
       = on_off_toggle (match bump_leading arg with
                        | EmptyString => "toggle"
                        | text => text
                        end) r (flags w)
    /\ (forall r', r' <> r -> get_flag r' (flags w') = get_flag r' (flags w))
    /\ vars w' = vars w /\ stepping w' = stepping w.
Proof using Type.
  intros Hword Hsel Hb Hr. unfold dbg_cmd_set.
  destruct psz_args as [|c0 s0]; [discriminate|].
  rewrite Hword, Hsel.
  assert (Hshape : forall shown r0,
    (bump_leading arg = EmptyString -> r0 = r) ->
    exists w',
      Some (set_on_off (bump_leading arg) r0 r shown w, debug_readloop)
        = Some (w', debug_readloop)
      /\ flags w' = on_off_toggle (match bump_leading arg with
                                   | EmptyString => "toggle"
                                   | text => text
                                   end) r (flags w)
      /\ (forall r', r' <> r -> get_flag r' (flags w') = get_flag r' (flags w))
      /\ vars w' = vars w /\ stepping w' = stepping w).
  { intros shown r0 Hr0. eexists. split; [reflexivity|].
    unfold set_on_off. cbn [flags vars stepping emit set_flags].
    destruct (bump_leading arg) as [|c1 t1] eqn:Ea.
    - rewrite (Hr0 eq_refl). repeat split.
      intros r' Hne. now apply on_off_toggle_other.
    - repeat split. intros r' Hne. now apply on_off_toggle_other. }
  destruct Hb as [Hb|[-> Hempty]].
  - cbn in Hb.
    destruct Hb as [<-|[<-|[<-|[<-|[]]]]]; cbn in Hr; injection Hr as <-;
      apply Hshape; reflexivity.
  - cbn in Hr. injection Hr as <-.
    rewrite Hempty. eexists. split; [reflexivity|].
    unfold set_on_off. cbn [flags vars stepping emit set_flags].
    repeat split. intros r' Hne. now apply on_off_toggle_other.
Qed.

End Handlers.

Lemma on_off_option_writes_its_own_flag_witness :
  (exists w',
     dbg_cmd_set expand_id no_int (Some "trace") world_FOO
       = Some (w', debug_readloop)
     /\ flags w' = put_flag ref_no_shell_trace 1 no_flags
     /\ vars w' = vars world_FOO)
  /\ (exists w',
        dbg_cmd_set expand_id no_int (Some "basename") world_FOO
          = Some (w', debug_readloop)
        /\ flags w' = put_flag ref_basename_filenames 1 no_flags
        /\ vars w' = vars world_FOO)
  /\ (exists w',
        dbg_cmd_set expand_id no_int (Some "keep on") world_FOO
          = Some (w', debug_readloop)
        /\ flags w' = put_flag ref_keep_going_flag 1 no_flags
        /\ (forall r', r' <> ref_keep_going_flag ->
              get_flag r' (flags w') = get_flag r' (flags world_FOO))
        /\ vars w' = vars world_FOO).
Proof.
  split; [|split].
  - destruct (on_off_option_writes_its_own_flag expand_id no_int
                "trace" "t" "race" EmptyString br_trace ref_no_shell_trace
                world_FOO eq_refl eq_refl
                (or_intror (conj eq_refl eq_refl)) eq_refl)
      as (w' & E & Hf & _ & Hv & _).
    exists w'. split; [exact E|]. split; [exact Hf|exact Hv].
  - destruct (on_off_option_writes_its_own_flag expand_id no_int
                "basename" "b" "asename" EmptyString br_basename
                ref_basename_filenames world_FOO eq_refl eq_refl
                (or_introl (or_introl eq_refl)) eq_refl)
      as (w' & E & Hf & _ & Hv & _).
    exists w'. split; [exact E|]. split; [exact Hf|exact Hv].
  - destruct (on_off_option_writes_its_own_flag expand_id no_int
                "keep on" "k" "eep" "on" br_keep_going ref_keep_going_flag
                world_FOO eq_refl eq_refl
                (or_introl (or_intror (or_intror (or_introl eq_refl)))) eq_refl)
      as (w' & E & Hf & Ho & Hv & _).
    exists w'. split; [exact E|]. split; [exact Hf|]. split; [exact Ho|exact Hv].
Defined.

Lemma no_nul_append_nul (s : string) : no_nul (s ++ String zero EmptyString) = false.
Proof.
  induction s as [|c s IH]; [reflexivity|].
  change (no_nul (String c (s ++ String zero EmptyString)) = false).
  cbn [no_nul]. rewrite IH. apply Bool.andb_false_r.
Qed.

Section Assignment.

Variable variable_expand : gmap string variable_t -> string -> string.

(** X18. Assigning to a variable that exists under the name given:
    the variable reads back as the value text (expanded when the
    expand flag is not zero), with origin debugger and the location it
    had; every other variable is as before, and the new value is
    echoed. The value text is what follows the blank after the name,
    its first character bumped if it is a blank or a tab. *)
Theorem assignment_reads_back
    (ch : ascii) (nm val : string) (expand : Z) (v : variable_t) (w : world) :
  is_word (String ch nm) = true ->
  vars w !! String ch nm = Some v ->
  let stored :=
    if (expand =? 0)%Z then bump_leading val
    else variable_expand (vars w) (bump_leading val) in
  exists w',
    dbg_cmd_set_var variable_expand (Some (String ch nm ++ String " " val))
      expand w = Some (w', debug_readloop)
    /\ vars w' !! String ch nm
       = Some {| value := stored; origin := o_debugger; fileinfo := fileinfo v |}
    /\ (forall other, other <> String ch nm -> vars w' !! other = vars w !! other)
    /\ output w'
       = Printed ("Variable " ++ String ch nm ++ " now has value '"
                  ++ stored ++ "'") :: output w
    /\ flags w' = flags w.
Proof using Type.
  intros Hword Hv stored. unfold dbg_cmd_set_var.
  change (String ch nm ++ String " " val)
    with (String ch (nm ++ String " " val)).
  change (String ch (nm ++ String " " val))
    with (String ch nm ++ String " " val) at 2.
  rewrite (CommandClaims.get_word_app ch nm val Hword).
  unfold lookup_variable. rewrite substring_full, Hv.
  cbn [fmap option_fmap option_map fst snd].
  unfold define_variable_in_set, name_bytes. rewrite Nat.leb_refl.
  rewrite substring_full. cbn [mbind option_bind].
  eexists. split; [reflexivity|]. cbn [vars set_vars emit output flags].
  split; [apply lookup_insert_eq|]. split; [|split; reflexivity].
  intros other Hne. now apply lookup_insert_ne.
Qed.

(** The variables [dbg_cmd_set_var] leaves alone: every name without
    NUL other than the first word of the argument text. *)
Lemma set_var_other_names (args : string) (expand : Z) (w w' : world)
    (r : debug_return_t) (key : string) :
  dbg_cmd_set_var variable_expand (Some args) expand w = Some (w', r) ->
  no_nul key = true ->
  key <> fst (get_word args) ->
  vars w' !! key = vars w !! key.
Proof using Type.
  unfold dbg_cmd_set_var. destruct args as [|c s]; [intros [= <- _]; reflexivity|].
  destruct (get_word (String c s)) as [psz_varname rest]. cbn [fst].
  unfold lookup_variable. rewrite substring_full.
  destruct (vars w !! psz_varname) as [v|]; cbn [fmap option_fmap option_map].
  - unfold define_variable_in_set, name_bytes. cbn [fst snd].
    rewrite Nat.leb_refl, substring_full. cbn [mbind option_bind].
    intros [= <- _] _ Hne. cbn [vars set_vars emit].
    apply lookup_insert_ne. congruence.
  - unfold try_without_dollar.
    destruct psz_varname as [|d nm]; [intros [= <- _]; reflexivity|].
    destruct (Ascii.eqb d "$"); [|intros [= <- _]; reflexivity].
    unfold lookup_variable. rewrite substring_full.
    destruct (vars w !! nm) as [v|]; cbn [fmap option_fmap option_map];
      [|intros [= <- _]; reflexivity].
    unfold define_variable_in_set, name_bytes. cbn [fst snd String.length].
    replace (S (String.length nm) <=? String.length nm)%nat with false
      by (symmetry; apply Nat.leb_gt; lia).
    rewrite Nat.eqb_refl. cbn [mbind option_bind].
    intros [= <- _] Hk _. cbn [vars set_vars emit].
    apply lookup_insert_ne. intros E. subst key.
    rewrite no_nul_append_nul in Hk. discriminate.
Qed.


Variable get_int : string -> option Z.

(** X20. In [set NAME VALUE], when NAME is no option, the name is
    consumed before the assignment handler is called: the handler gets
    the text after NAME only, takes its first word as the variable,
    and NAME itself is never assigned (unless that first word is NAME
    again). *)
Theorem set_name_value_skips_name
    (ch : ascii) (nm rest : string) (w : world) :
  is_word (String ch nm) = true ->
  no_nul (String ch nm) = true ->
  select_branch (String ch nm) = None ->
  fst (get_word (bump_leading rest)) <> String ch nm ->
  exists w',
    dbg_cmd_set variable_expand get_int
      (Some (String ch nm ++ String " " rest)) w = Some (w', debug_readloop)
    /\ dbg_cmd_set variable_expand get_int
         (Some (String ch nm ++ String " " rest)) w
       = dbg_cmd_set_var variable_expand (Some (bump_leading rest)) 1 w
    /\ vars w' !! String ch nm = vars w !! String ch nm.
Proof using Type.
  intros Hword Hn Hsel Hne.
  assert (E : dbg_cmd_set variable_expand get_int
                (Some (String ch nm ++ String " " rest)) w
              = dbg_cmd_set_var variable_expand (Some (bump_leading rest)) 1 w).
  { unfold dbg_cmd_set.
    change (String ch nm ++ String " " rest)
      with (String ch (nm ++ String " " rest)).
    change (String ch (nm ++ String " " rest))
      with (String ch nm ++ String " " rest) at 2.
    now rewrite (CommandClaims.get_word_app ch nm rest Hword), Hsel. }
  destruct (dbg_cmd_set_var_returns variable_expand
              (Some (bump_leading rest)) 1 w) as (w' & Hw' & _).
  exists w'. rewrite E. split; [exact Hw'|]. split; [reflexivity|].
  apply (set_var_other_names (bump_leading rest) 1 w w' debug_readloop);
    [exact Hw'|exact Hn|congruence].
Qed.

End Assignment.

Lemma assignment_reads_back_witness :
  exists w',
    dbg_cmd_set_var expand_id (Some "FOO bar baz") 0 world_FOO
      = Some (w', debug_readloop)
    /\ vars w' !! "FOO"
       = Some {| value := "bar baz"; origin := o_debugger;
                 fileinfo := makefile_3 |}
    /\ (forall other, other <> "FOO" -> vars w' !! other = vars world_FOO !! other)
    /\ output w' = [Printed "Variable FOO now has value 'bar baz'"]
    /\ flags w' = flags world_FOO.
Proof.
  apply (assignment_reads_back expand_id "F" "OO" "bar baz" 0
           {| value := "old"; origin := o_file; fileinfo := makefile_3 |}
           world_FOO); reflexivity.
Defined.


Lemma set_name_value_skips_name_witness :
  exists w',
    dbg_cmd_set expand_id no_int (Some "FOO bar") world_FOO
      = Some (w', debug_readloop)
    /\ dbg_cmd_set expand_id no_int (Some "FOO bar") world_FOO
       = dbg_cmd_set_var expand_id (Some "bar") 1 world_FOO
    /\ vars w' !! "FOO" = vars world_FOO !! "FOO".
Proof.
  apply (set_name_value_skips_name expand_id no_int "F" "OO" "bar" world_FOO).
  - reflexivity.
  - reflexivity.
  - reflexivity.
  - discriminate.
Defined.

(** X21. The loop after [get_word] never ends the text nor moves in
    it: it changes at most the first character of a text that does not
    start with NUL, a blank to an exclamation mark and a tab to a line
    feed, and leaves every other text as it is. What it leaves never
    starts with a blank or a tab. *)
Theorem bump_leading_changes_first_character (c : ascii) (t : string) :
  Ascii.eqb c zero = false ->
  bump_leading (String c t)
  = String (if Ascii.eqb c " " then "!"%char
            else if Ascii.eqb c "009" then "010"%char else c) t
  /\ String.length (bump_leading (String c t)) = String.length (String c t)
  /\ skip_whitespace (bump_leading (String c t)) = bump_leading (String c t).
Proof.
  intros Hc. unfold bump_leading. rewrite bump_while_char.
  destruct (Ascii.eqb_spec c " ") as [->|H1]; [repeat split|].
  destruct (Ascii.eqb_spec c "009") as [->|H2]; [repeat split|].
  rewrite Hc. split; [reflexivity|]. split; [reflexivity|].
  cbn [skip_whitespace]. unfold whitespace.
  apply Ascii.eqb_neq in H1, H2. now rewrite H1, H2.
Qed.

Lemma bump_leading_changes_first_character_witness :
  bump_leading (String "009" "x") = String "010" "x"
  /\ String.length (bump_leading (String "009" "x")) = 2%nat
  /\ skip_whitespace (bump_leading (String "009" "x"))
     = bump_leading (String "009" "x").
Proof.
  apply (bump_leading_changes_first_character "009" "x"). reflexivity.
Defined.

Lemma show_entries_frame (entries : list string) :
  forall (i : N) (w : world),
    output (show_entries i entries w)
    = List.app
        (rev (imap (fun k line =>
                      Printed (pad5 (i + N.of_nat k) ++ "  " ++ line)) entries))
        (output w)
    /\ flags (show_entries i entries w) = flags w
    /\ vars (show_entries i entries w) = vars w
    /\ stepping (show_entries i entries w) = stepping w
    /\ files (show_entries i entries w) = files w
    /\ report (show_entries i entries w) = report w
    /\ init (show_entries i entries w) = init w.
Proof.
  induction entries as [|line entries IH]; intros i w; cbn [show_entries].
  - repeat split.
  - destruct (IH (i + 1)%N (emit (Printed (pad5 i ++ "  " ++ line)) w))
      as (Ho & Hf & Hv & Hs & Hfi & Hr & Hi).
    rewrite Ho, Hf, Hv, Hs, Hfi, Hr, Hi.
    cbn [emit output flags vars stepping files report init].
    repeat split. rewrite imap_cons. cbn [rev].
    rewrite <- app_assoc. cbn [app]. rewrite N.add_0_r.
    do 2 f_equal. apply imap_ext. intros k line' _. cbn.
    do 3 f_equal. lia.
Qed.

(** X22. [dbg_cmd_show_command] prints the history from its second
    entry on, oldest first, each line behind its index (1, 2, ...)
    right-aligned in a field of five characters and two blanks; entry
    0 is never shown and the argument text is ignored. Without a
    history list nothing is printed. It always returns
    [debug_readloop] and changes nothing but what is printed. *)
Theorem show_command_lists_history_from_one
    (psz_args : option string) (hist_list : option (string * list string))
    (w : world) :
  let w' := fst (dbg_cmd_show_command psz_args hist_list w) in
  snd (dbg_cmd_show_command psz_args hist_list w) = debug_readloop
  /\ output w'
     = List.app
         (rev (imap (fun k line =>
                       Printed (pad5 (N.of_nat (S k)) ++ "  " ++ line))
                    (match hist_list with
                     | Some (_, entries) => entries
                     | None => []
                     end)))
         (output w)
  /\ flags w' = flags w /\ vars w' = vars w /\ stepping w' = stepping w
  /\ files w' = files w /\ report w' = report w /\ init w' = init w
  /\ pad5 1 = "    1" /\ pad5 42 = "   42" /\ pad5 99999 = "99999"
  /\ pad5 123456 = "123456"
  /\ output (fst (dbg_cmd_show_command (Some "ignored")
                    (Some ("", ["step"; "info target"; "quit"])) w))
     = Printed "    3  quit" :: Printed "    2  info target"
       :: Printed "    1  step" :: output w
  /\ dbg_cmd_show_command psz_args None w = (w, debug_readloop).
Proof.
  intros w'. unfold w', dbg_cmd_show_command.
  split; [destruct hist_list as [[first entries]|]; reflexivity|].
  assert (Hfmt : pad5 1 = "    1" /\ pad5 42 = "   42" /\ pad5 99999 = "99999"
                 /\ pad5 123456 = "123456")
    by (repeat split; vm_compute; reflexivity).
  destruct Hfmt as (F1 & F2 & F3 & F4).
  destruct hist_list as [[first entries]|].
  - cbn [fst snd].
    destruct (show_entries_frame entries 1 w)
      as (Ho & Hf & Hv & Hs & Hfi & Hr & Hi).
    rewrite Ho, Hf, Hv, Hs, Hfi, Hr, Hi.
    split.
    { do 2 f_equal. apply imap_ext. intros k line _. cbn. do 3 f_equal. lia. }
    repeat split; try assumption.
  - cbn [fst snd imap rev app]. repeat split; try assumption.
Qed.

End CommandExtras.
